(** * Authorization policy builder (pilot/pkg/security/authz/builder/builder.go)

    A shallow embedding of the Go package [builder], which turns the
    authorization policies selected for a workload into Envoy RBAC filters,
    together with the properties of its aggregation ([build]), of the two
    protocol entry points ([BuildHTTP], [BuildTCP]) and of the constructor
    ([New]).

    Conventions of the embedding:
    - a Go pointer that the code compares with [nil] is an [option];
    - a Go [(value, error)] result is a pair whose second component is an
      [option error], tested first, as the code does;
    - a Go [string] is a [string] (a sequence of bytes), a slice is a [list],
      the index of a [range] loop is a [nat];
    - [map[string]*rbacpb.Policy] is a [gmap string (option Policy)]: the
      values are pointers, so the type admits [nil] values;
    - the only side effect of the package, writing to the logging scope
      [authzLog], is threaded through a small state monad over the log;
    - the collaborators are functions; for the determinism of [build] the
      code is also given over collaborators with a state of their own
      ([build_st], which is [build] when they have no effect). *)

From Stdlib Require Import Ascii.
From stdpp Require Import base strings pretty list gmap.

Module builder.

(** ** Data model *)

(** [rbacpb.RBAC_Action]. *)
Inductive RBAC_Action : Set := RBAC_ALLOW | RBAC_DENY.

#[global] Instance RBAC_Action_eq_dec : EqDecision RBAC_Action.
Proof. solve_decision. Defined.

(** [fmt.Sprintf("ns[%s]-policy[%s]-rule[%d]", namespace, name, i)]: the two
    strings are copied as they are, the index is printed in decimal. *)
Definition Sprintf_rule_name (namespace name : string) (i : nat) : string :=
  "ns[" +:+ namespace +:+ "]-policy[" +:+ name +:+ "]-rule[" +:+ pretty i +:+ "]".

(** Whether the byte [c] occurs in [s]. *)
Fixpoint occurs (c : ascii) (s : string) : bool :=
  match s with
  | EmptyString => false
  | String a s' => if decide (a = c) then true else occurs c s'
  end.

(** Unfolding of [+:+] on a string that starts with known bytes. *)
Ltac string_app :=
  repeat match goal with
    | |- context [String ?a ?s +:+ ?t] =>
        change (String a s +:+ t) with (String a (s +:+ t))
    | |- context [EmptyString +:+ ?t] => change (EmptyString +:+ t) with t
    end.

Ltac string_app_in H :=
  repeat match type of H with
    | context [String ?a ?s +:+ ?t] =>
        change (String a s +:+ t) with (String a (s +:+ t)) in H
    | context [EmptyString +:+ ?t] => change (EmptyString +:+ t) with t in H
    end.

(** Levels of the logging scope used by the package. *)
Inductive LogLevel : Set := ErrorLevel | DebugLevel.

Section model.

(** The records are parameterised by the types that collaborators own:
    [authzpb.Rule], [rbacpb.Policy], [trustdomain.Bundle] and the protobuf
    [any.Any]. *)
Context {Rule Policy Bundle Any : Type}.

(** Modelled from the spec: the declarations of [authzpb.AuthorizationPolicy]
    and [model.AuthorizationPolicyConfig] (PolicyConfig: a namespace, a name
    and an ordered rule sequence whose entries may be absent); the field
    names are the ones [build] reads. *)
Record authzpb_AuthorizationPolicy : Type := {
  Rules : list (option Rule)
}.

Record AuthorizationPolicyConfig : Type := {
  Name : string;
  Namespace : string;
  AuthorizationPolicy : authzpb_AuthorizationPolicy
}.

(** [rbacpb.RBAC]: the fields [build] sets. *)
Record rbacpb_RBAC : Type := {
  Action : RBAC_Action;
  Policies : gmap string (option Policy)
}.

(** [rbachttppb.RBAC] and [rbactcppb.RBAC]; [Rules] is a pointer. *)
Record rbachttppb_RBAC : Type := {
  http_Rules : option rbacpb_RBAC
}.

Record rbactcppb_RBAC : Type := {
  tcp_Rules : option rbacpb_RBAC;
  StatPrefix : string
}.

(** The two messages the package hands to [util.MessageToAny]. *)
Inductive Message : Type :=
| Message_rbachttppb (config : rbachttppb_RBAC)
| Message_rbactcppb (config : rbactcppb_RBAC).

(** [httppb.HttpFilter] and [tcppb.Filter], with the [TypedConfig] case of
    their [ConfigType]. *)
Record HttpFilter : Type := {
  HttpFilter_Name : string;
  HttpFilter_TypedConfig : Any
}.

Record Filter : Type := {
  Filter_Name : string;
  Filter_TypedConfig : Any
}.

(** [Builder]. *)
Record Builder : Type := {
  trustDomainBundle : Bundle;
  denyPolicies : list AuthorizationPolicyConfig;
  allowPolicies : list AuthorizationPolicyConfig
}.

End model.

Arguments authzpb_AuthorizationPolicy : clear implicits.
Arguments AuthorizationPolicyConfig : clear implicits.
Arguments rbacpb_RBAC : clear implicits.
Arguments rbachttppb_RBAC : clear implicits.
Arguments rbactcppb_RBAC : clear implicits.
Arguments Message : clear implicits.
Arguments HttpFilter : clear implicits.
Arguments Filter : clear implicits.
Arguments Builder : clear implicits.

(** ** A sample instance

    Rules, models and policies are numbers and errors are messages. The
    model of rule [r] is [r]; rule 0 cannot be constructed, generation fails
    on model 1 and returns nil on model 2, and any other model [m] generates
    the policy [m]. The selector returns the two lists it is given, the
    serialised message is the message itself, and the three names are sample
    values. *)

Definition sample_New (r : nat) : nat * option string :=
  if r =? 0 then (0, Some "invalid rule") else (r, None).

Definition sample_Migrate (m : nat) (tdBundle : unit) : nat := m.

Definition sample_Generate (m : nat) (forTCP forDeny : bool) : option nat * option string :=
  if m =? 1 then (None, Some "generation failed")
  else if m =? 2 then (None, None)
  else (Some m, None).

Definition sample_policy (namespace name : string) (rules : list (option nat)) :
    AuthorizationPolicyConfig nat :=
  {| Name := name; Namespace := namespace;
     AuthorizationPolicy := {| Rules := rules |} |}.

Definition sample_List
    (policies : list (AuthorizationPolicyConfig nat)
                * list (AuthorizationPolicyConfig nat))
    (namespace : string) (workload : unit) :
    list (AuthorizationPolicyConfig nat) * list (AuthorizationPolicyConfig nat) :=
  policies.

Definition sample_MessageToAny (msg : Message nat) : Message nat := msg.

(** Sample collaborators with effects: the state they share counts the
    calls made so far. The first three return what the sample collaborators
    above return, whatever the count; [counting_Generate_st] returns the
    count itself as the generated policy. *)
Definition sample_New_st (r : nat) (w : nat) : (nat * option string) * nat :=
  (sample_New r, S w).

Definition sample_Migrate_st (m : nat) (tdBundle : unit) (w : nat) : nat * nat :=
  (sample_Migrate m tdBundle, S w).

Definition sample_Generate_st (m : nat) (forTCP forDeny : bool) (w : nat) :
    (option nat * option string) * nat :=
  (sample_Generate m forTCP forDeny, S w).

Definition counting_Generate_st (m : nat) (forTCP forDeny : bool) (w : nat) :
    (option nat * option string) * nat :=
  ((Some w, None), S w).

(** Two policies with distinct identities whose rules get the same
    synthetic name. *)
Definition colliding_policies : list (AuthorizationPolicyConfig nat) :=
  [ sample_policy "a]-policy[b" "c" [Some 3];
    sample_policy "a" "b]-policy[c" [Some 4] ].

(** Two policies of one namespace; the first has a nil rule and a rule that
    cannot be constructed among its rules. *)
Definition sample_policies : list (AuthorizationPolicyConfig nat) :=
  [ sample_policy "ns1" "p1" [Some 3; None; Some 0; Some 5];
    sample_policy "ns1" "p2" [Some 1; Some 2; Some 7] ].

Section authz.

(** Types owned by the collaborators of the package: [authzpb.Rule],
    [authzmodel.Model], [rbacpb.Policy], Go's [error],
    [trustdomain.Bundle], [labels.Collection],
    [model.AuthorizationPolicies] and the protobuf [any.Any]. *)
Context {Rule Model Policy error Bundle Collection AuthorizationPolicies Any : Type}.

(** ** The collaborators *)

(** [policies.ListAuthorizationPolicies(namespace, workload)]. *)
Variable ListAuthorizationPolicies :
  AuthorizationPolicies → string → Collection →
  list (AuthorizationPolicyConfig Rule) * list (AuthorizationPolicyConfig Rule).

(** [authzmodel.New(rule)]. *)
Variable authzmodel_New : Rule → Model * option error.

(** [m.MigrateTrustDomain(tdBundle)] updates the model in place; the
    function returns the updated model. *)
Variable MigrateTrustDomain : Model → Bundle → Model.

(** [m.Generate(forTCP, forDeny)]. *)
Variable Generate : Model → bool → bool → option Policy * option error.

(** [util.MessageToAny] and the constants of [authzmodel]. *)
Variable MessageToAny : Message Policy → Any.
Variables RBACHTTPFilterName RBACTCPFilterName RBACTCPFilterStatPrefix : string.

(** ** The logging scope [authzLog] *)

Inductive LogArg : Type :=
| ArgString (s : string)
| ArgError (err : error)
| ArgPolicy (p : Policy).

(** One call of [authzLog.Errorf] or [authzLog.Debugf]: the level, the
    format string and the arguments. *)
Record LogRecord : Type := {
  level : LogLevel;
  format : string;
  args : list LogArg
}.

Definition Log : Type := list LogRecord.

(** Computations that append to the log. *)
Definition M (A : Type) : Type := Log → A * Log.

#[global] Instance M_ret : MRet M := λ A (a : A) (l : Log), (a, l).
#[global] Instance M_bind : MBind M :=
  λ A B (f : A → M B) (m : M A) (l : Log), f (m l).1 (m l).2.

Definition Errorf (fmt : string) (a : list LogArg) : M unit :=
  λ l, (tt, l ++ [{| level := ErrorLevel; format := fmt; args := a |}]).

Definition Debugf (fmt : string) (a : list LogArg) : M unit :=
  λ l, (tt, l ++ [{| level := DebugLevel; format := fmt; args := a |}]).

(** ** [New] *)

Definition New (trustDomainBundle : Bundle) (workload : Collection)
    (namespace : string) (policies : AuthorizationPolicies) : option (Builder Rule Bundle) :=
  let '(denyPolicies, allowPolicies) :=
    ListAuthorizationPolicies policies namespace workload in
  if (length denyPolicies =? 0) && (length allowPolicies =? 0) then None
  else Some {| trustDomainBundle := trustDomainBundle;
               denyPolicies := denyPolicies;
               allowPolicies := allowPolicies |}.

(** ** [build] *)

(** [rules.Policies[name] = generated]. *)
Definition set_policy (rules : rbacpb_RBAC Policy) (name : string)
    (generated : option Policy) : rbacpb_RBAC Policy :=
  {| Action := Action rules; Policies := <[name := generated]> (Policies rules) |}.

(** The body of the inner loop, for the rule at index [i] of [policy]. *)
Definition build_rule (policy : AuthorizationPolicyConfig Rule) (tdBundle : Bundle)
    (forTCP forDeny : bool) (rules : rbacpb_RBAC Policy) (i : nat)
    (rule : option Rule) : M (rbacpb_RBAC Policy) :=
  let name := Sprintf_rule_name (Namespace policy) (Name policy) i in
  match rule with
  | None =>
      Errorf "skipped nil rule %s" [ArgString name];; mret rules
  | Some r =>
      let '(m, err) := authzmodel_New r in
      match err with
      | Some e =>
          Errorf "skipped rule %s: %v" [ArgString name; ArgError e];;
          mret rules
      | None =>
          let m := MigrateTrustDomain m tdBundle in
          let '(generated, err) := Generate m forTCP forDeny in
          match err with
          | Some e =>
              Errorf "skipped rule %s: %v" [ArgString name; ArgError e];;
              mret rules
          | None =>
              match generated with
              | Some g =>
                  let rules := set_policy rules name generated in
                  Debugf "rule %s generated policy: %+v"
                    [ArgString name; ArgPolicy g];;
                  mret rules
              | None => mret rules
              end
          end
      end
  end.

(** [for i, rule := range policy.AuthorizationPolicy.Rules], from index [i]. *)
Fixpoint build_rules (policy : AuthorizationPolicyConfig Rule) (tdBundle : Bundle)
    (forTCP forDeny : bool) (i : nat) (rs : list (option Rule))
    (rules : rbacpb_RBAC Policy) : M (rbacpb_RBAC Policy) :=
  match rs with
  | [] => mret rules
  | rule :: rs' =>
      rules ← build_rule policy tdBundle forTCP forDeny rules i rule;
      build_rules policy tdBundle forTCP forDeny (S i) rs' rules
  end.

(** [for _, policy := range policies]. *)
Fixpoint build_policies (policies : list (AuthorizationPolicyConfig Rule))
    (tdBundle : Bundle) (forTCP forDeny : bool)
    (rules : rbacpb_RBAC Policy) : M (rbacpb_RBAC Policy) :=
  match policies with
  | [] => mret rules
  | policy :: policies' =>
      rules ← build_rules policy tdBundle forTCP forDeny 0
                (Rules (AuthorizationPolicy policy)) rules;
      build_policies policies' tdBundle forTCP forDeny rules
  end.

(** The ruleset [build] starts from: [rules] after
    [if forDeny { rules.Action = rbacpb.RBAC_DENY }]. *)
Definition initial_rules (forDeny : bool) : rbacpb_RBAC Policy :=
  let rules := {| Action := RBAC_ALLOW; Policies := ∅ |} in
  if forDeny then {| Action := RBAC_DENY; Policies := Policies rules |}
  else rules.

Definition build (policies : list (AuthorizationPolicyConfig Rule)) (tdBundle : Bundle)
    (forTCP forDeny : bool) : M (option (rbachttppb_RBAC Policy)) :=
  if length policies =? 0 then mret None
  else
    rules ← build_policies policies tdBundle forTCP forDeny
              (initial_rules forDeny);
    mret (Some {| http_Rules := Some rules |}).

(** ** The filter envelopes *)

Definition createHTTPFilter (config : option (rbachttppb_RBAC Policy)) : option (HttpFilter Any) :=
  match config with
  | None => None
  | Some c =>
      Some {| HttpFilter_Name := RBACHTTPFilterName;
              HttpFilter_TypedConfig := MessageToAny (Message_rbachttppb c) |}
  end.

Definition createTCPFilter (config : option (rbachttppb_RBAC Policy)) : option (Filter Any) :=
  match config with
  | None => None
  | Some c =>
      let rbacConfig := {| tcp_Rules := http_Rules c;
                           StatPrefix := RBACTCPFilterStatPrefix |} in
      Some {| Filter_Name := RBACTCPFilterName;
              Filter_TypedConfig := MessageToAny (Message_rbactcppb rbacConfig) |}
  end.

(** ** [BuildHTTP] and [BuildTCP] *)

Definition BuildHTTP (b : Builder Rule Bundle) : M (list (option (HttpFilter Any))) :=
  let filters := [] in
  denyConfig ← build (denyPolicies b) (trustDomainBundle b) false true;
  let filters :=
    match denyConfig with
    | Some _ => filters ++ [createHTTPFilter denyConfig]
    | None => filters
    end in
  allowConfig ← build (allowPolicies b) (trustDomainBundle b) false false;
  let filters :=
    match allowConfig with
    | Some _ => filters ++ [createHTTPFilter allowConfig]
    | None => filters
    end in
  mret filters.

Definition BuildTCP (b : Builder Rule Bundle) : M (list (option (Filter Any))) :=
  let filters := [] in
  denyConfig ← build (denyPolicies b) (trustDomainBundle b) true true;
  let filters :=
    match denyConfig with
    | Some _ => filters ++ [createTCPFilter denyConfig]
    | None => filters
    end in
  allowConfig ← build (allowPolicies b) (trustDomainBundle b) true false;
  let filters :=
    match allowConfig with
    | Some _ => filters ++ [createTCPFilter allowConfig]
    | None => filters
    end in
  mret filters.

(** ** What a run of [build] inserts

    These functions describe the run without the log: the policy a rule
    contributes, and the insertions of a run, in the order [build] makes
    them. [build_policies_spec] below relates them to the code. *)

(** The rule is skipped with an error diagnostic: it is [nil], or
    [authzmodel.New] fails on it, or [Generate] fails on its model. *)
Definition rule_fails (tdBundle : Bundle) (forTCP forDeny : bool)
    (rule : option Rule) : bool :=
  match rule with
  | None => true
  | Some r =>
      match authzmodel_New r with
      | (_, Some _) => true
      | (m, None) =>
          match Generate (MigrateTrustDomain m tdBundle) forTCP forDeny with
          | (_, Some _) => true
          | (_, None) => false
          end
      end
  end.

(** The policy stored for the rule, if one is. *)
Definition rule_generated (tdBundle : Bundle) (forTCP forDeny : bool)
    (rule : option Rule) : option Policy :=
  match rule with
  | None => None
  | Some r =>
      match authzmodel_New r with
      | (_, Some _) => None
      | (m, None) =>
          match Generate (MigrateTrustDomain m tdBundle) forTCP forDeny with
          | (_, Some _) => None
          | (generated, None) => generated
          end
      end
  end.

(** The insertion made for the rule at index [i] of [policy]: none or one. *)
Definition rule_entry (policy : AuthorizationPolicyConfig Rule) (tdBundle : Bundle)
    (forTCP forDeny : bool) (i : nat) (rule : option Rule) : list (string * Policy) :=
  match rule_generated tdBundle forTCP forDeny rule with
  | Some g => [(Sprintf_rule_name (Namespace policy) (Name policy) i, g)]
  | None => []
  end.

(** The insertions made for the rules [rs], which start at index [i]. *)
Fixpoint rules_entries (policy : AuthorizationPolicyConfig Rule) (tdBundle : Bundle)
    (forTCP forDeny : bool) (i : nat) (rs : list (option Rule)) : list (string * Policy) :=
  match rs with
  | [] => []
  | rule :: rs' =>
      rule_entry policy tdBundle forTCP forDeny i rule
      ++ rules_entries policy tdBundle forTCP forDeny (S i) rs'
  end.

(** The insertions made for a policy and for a list of policies. *)
Definition policy_entries (tdBundle : Bundle) (forTCP forDeny : bool)
    (policy : AuthorizationPolicyConfig Rule) : list (string * Policy) :=
  rules_entries policy tdBundle forTCP forDeny 0 (Rules (AuthorizationPolicy policy)).

Fixpoint policies_entries (policies : list (AuthorizationPolicyConfig Rule))
    (tdBundle : Bundle) (forTCP forDeny : bool) : list (string * Policy) :=
  match policies with
  | [] => []
  | policy :: policies' =>
      policy_entries tdBundle forTCP forDeny policy
      ++ policies_entries policies' tdBundle forTCP forDeny
  end.

(** Making the insertions [es], in order, on [rules]. *)
Definition insert_entries (es : list (string * Policy))
    (rules : rbacpb_RBAC Policy) : rbacpb_RBAC Policy :=
  foldl (λ rules e, set_policy rules e.1 (Some e.2)) rules es.

(** What [build] returns, as [build_spec] shows. *)
Definition build_result (policies : list (AuthorizationPolicyConfig Rule))
    (tdBundle : Bundle) (forTCP forDeny : bool) : option (rbachttppb_RBAC Policy) :=
  match policies with
  | [] => None
  | _ :: _ =>
      Some {| http_Rules :=
                Some (insert_entries (policies_entries policies tdBundle forTCP forDeny)
                        (initial_rules forDeny)) |}
  end.

(** The identity of a policy. *)
Definition policy_id (policy : AuthorizationPolicyConfig Rule) : string * string :=
  (Namespace policy, Name policy).

(** No namespace of [policies] has a closing bracket in it, or no name has
    an opening bracket in it: the condition under which a synthetic name can
    be read back. *)
Definition names_unambiguous (policies : list (AuthorizationPolicyConfig Rule)) : bool :=
  forallb (λ policy, negb (occurs "]" (Namespace policy))) policies
  || forallb (λ policy, negb (occurs "[" (Name policy))) policies.

(** [m] returns [a] and only appends to the log, the same records whatever
    the log was. *)
Definition appends {A : Type} (m : M A) (a : A) : Prop :=
  ∃ w : Log, ∀ l : Log, m l = (a, l ++ w).

(** The namespace and the name of a policy as they stand in its synthetic
    names, with the text that [fmt.Sprintf] puts between them. *)
Definition policy_key (policy : AuthorizationPolicyConfig Rule) : string :=
  Namespace policy +:+ "]-policy[" +:+ Name policy.

(** ** [build] over collaborators with effects

    The same code, for collaborators that read and change a state of their
    own (caches, counters, the objects they allocate): each takes the state
    [World] and returns the next one with its result. The state of a run is
    the state of the collaborators and the log. [build_st_pure] below shows
    that this is [build] when the collaborators have no effect. *)

Context {World : Type}.

(** [authzmodel.New(rule)], [m.MigrateTrustDomain(tdBundle)] and
    [m.Generate(forTCP, forDeny)], with their effects. *)
Variable authzmodel_New_st : Rule → World → (Model * option error) * World.
Variable MigrateTrustDomain_st : Model → Bundle → World → Model * World.
Variable Generate_st :
  Model → bool → bool → World → (option Policy * option error) * World.

Record State : Type := {
  world : World;
  authzLog : Log
}.

Definition set_world (w : World) (s : State) : State :=
  {| world := w; authzLog := authzLog s |}.

Definition Errorf_st (fmt : string) (a : list LogArg) (s : State) : State :=
  {| world := world s; authzLog := (Errorf fmt a (authzLog s)).2 |}.

Definition Debugf_st (fmt : string) (a : list LogArg) (s : State) : State :=
  {| world := world s; authzLog := (Debugf fmt a (authzLog s)).2 |}.

(** The body of the inner loop. *)
Definition build_rule_st (policy : AuthorizationPolicyConfig Rule)
    (tdBundle : Bundle) (forTCP forDeny : bool) (rules : rbacpb_RBAC Policy)
    (i : nat) (rule : option Rule) (s : State) : rbacpb_RBAC Policy * State :=
  let name := Sprintf_rule_name (Namespace policy) (Name policy) i in
  match rule with
  | None => (rules, Errorf_st "skipped nil rule %s" [ArgString name] s)
  | Some r =>
      let '(m, err, w) := authzmodel_New_st r (world s) in
      let s := set_world w s in
      match err with
      | Some e =>
          (rules, Errorf_st "skipped rule %s: %v" [ArgString name; ArgError e] s)
      | None =>
          let '(m, w) := MigrateTrustDomain_st m tdBundle (world s) in
          let s := set_world w s in
          let '(generated, err, w) := Generate_st m forTCP forDeny (world s) in
          let s := set_world w s in
          match err with
          | Some e =>
              (rules,
               Errorf_st "skipped rule %s: %v" [ArgString name; ArgError e] s)
          | None =>
              match generated with
              | Some g =>
                  (set_policy rules name generated,
                   Debugf_st "rule %s generated policy: %+v"
                     [ArgString name; ArgPolicy g] s)
              | None => (rules, s)
              end
          end
      end
  end.

Fixpoint build_rules_st (policy : AuthorizationPolicyConfig Rule)
    (tdBundle : Bundle) (forTCP forDeny : bool) (i : nat)
    (rs : list (option Rule)) (rules : rbacpb_RBAC Policy) (s : State) :
    rbacpb_RBAC Policy * State :=
  match rs with
  | [] => (rules, s)
  | rule :: rs' =>
      let '(rules, s) := build_rule_st policy tdBundle forTCP forDeny rules i rule s in
      build_rules_st policy tdBundle forTCP forDeny (S i) rs' rules s
  end.

Fixpoint build_policies_st (policies : list (AuthorizationPolicyConfig Rule))
    (tdBundle : Bundle) (forTCP forDeny : bool) (rules : rbacpb_RBAC Policy)
    (s : State) : rbacpb_RBAC Policy * State :=
  match policies with
  | [] => (rules, s)
  | policy :: policies' =>
      let '(rules, s) :=
        build_rules_st policy tdBundle forTCP forDeny 0
          (Rules (AuthorizationPolicy policy)) rules s in
      build_policies_st policies' tdBundle forTCP forDeny rules s
  end.

Definition build_st (policies : list (AuthorizationPolicyConfig Rule))
    (tdBundle : Bundle) (forTCP forDeny : bool) (s : State) :
    option (rbachttppb_RBAC Policy) * State :=
  if length policies =? 0 then (None, s)
  else
    let '(rules, s) :=
      build_policies_st policies tdBundle forTCP forDeny (initial_rules forDeny) s in
    (Some {| http_Rules := Some rules |}, s).

(** Rule-model construction, migration and generation are deterministic:
    what each returns does not depend on the state it is called in. *)
Definition deterministic_collaborators : Prop :=
  (∀ r w1 w2, (authzmodel_New_st r w1).1 = (authzmodel_New_st r w2).1)
  ∧ (∀ m tdBundle w1 w2,
       (MigrateTrustDomain_st m tdBundle w1).1
       = (MigrateTrustDomain_st m tdBundle w2).1)
  ∧ (∀ m forTCP forDeny w1 w2,
       (Generate_st m forTCP forDeny w1).1 = (Generate_st m forTCP forDeny w2).1).

(** The collaborators have no effect and return what the collaborators of
    the sections above return. *)
Definition pure_collaborators : Prop :=
  (∀ r w, authzmodel_New_st r w = (authzmodel_New r, w))
  ∧ (∀ m tdBundle w,
       MigrateTrustDomain_st m tdBundle w = (MigrateTrustDomain m tdBundle, w))
  ∧ (∀ m forTCP forDeny w,
       Generate_st m forTCP forDeny w = (Generate m forTCP forDeny, w)).

(** ** Reading the log

    What the records that a run appends say about the run. *)

(** The record is a call of [authzLog.Errorf]. *)
Definition is_error_record (r : LogRecord) : bool :=
  match level r with
  | ErrorLevel => true
  | DebugLevel => false
  end.

(** The name and the policy of a call
    [authzLog.Debugf("rule %s generated policy: %+v", name, generated)]. *)
Definition debug_entry (r : LogRecord) : option (string * Policy) :=
  match level r, args r with
  | DebugLevel, [ArgString name; ArgPolicy g] => Some (name, g)
  | _, _ => None
  end.

(** The number of rules of the input that are skipped with an error
    diagnostic, and the number of rules of the input. *)
Definition policies_failures (policies : list (AuthorizationPolicyConfig Rule))
    (tdBundle : Bundle) (forTCP forDeny : bool) : nat :=
  sum_list_with
    (λ policy,
       length (List.filter (rule_fails tdBundle forTCP forDeny)
                 (Rules (AuthorizationPolicy policy))))
    policies.

Definition policies_rules (policies : list (AuthorizationPolicyConfig Rule)) : nat :=
  sum_list_with (λ policy, length (Rules (AuthorizationPolicy policy))) policies.

(** The records [w] are one debug record for each of the insertions [es], in
    their order, and [n] error records, and nothing else. *)
Definition log_accounts (w : Log) (es : list (string * Policy)) (n : nat) : Prop :=
  omap debug_entry w = es
  ∧ length (List.filter is_error_record w) = n
  ∧ length w = length es + n.

(** ** Strings and synthetic names *)

(** [%d] prints the index in decimal, without padding. *)
Example Sprintf_rule_name_0 :
  Sprintf_rule_name "ns1" "p1" 0 = "ns[ns1]-policy[p1]-rule[0]".
Proof. by vm_compute. Qed.

Example Sprintf_rule_name_120 :
  Sprintf_rule_name "default" "allow-all" 120
  = "ns[default]-policy[allow-all]-rule[120]".
Proof. by vm_compute. Qed.

Lemma string_app_assoc (s t u : string) : (s +:+ t) +:+ u = s +:+ (t +:+ u).
Proof. induction s as [|a s IH]; string_app; [done|]. by rewrite IH. Qed.

Lemma string_app_length (s t : string) :
  String.length (s +:+ t) = String.length s + String.length t.
Proof. induction s as [|a s IH]; string_app; simpl; [done|]. by rewrite IH. Qed.

Lemma string_app_inv_tail (s1 s2 t : string) : s1 +:+ t = s2 +:+ t → s1 = s2.
Proof.
  revert s2. induction s1 as [|a s1 IH]; intros [|b s2] H; string_app_in H.
  - done.
  - apply (f_equal String.length) in H. simpl in H.
    rewrite string_app_length in H. lia.
  - apply (f_equal String.length) in H. simpl in H.
    rewrite string_app_length in H. lia.
  - injection H as -> H. by rewrite (IH _ H).
Qed.

Lemma occurs_app (c : ascii) (s t : string) :
  occurs c (s +:+ t) = occurs c s || occurs c t.
Proof.
  induction s as [|a s IH]; string_app; simpl; [done|].
  by destruct (decide (a = c)).
Qed.

Lemma occurs_app_cons (c : ascii) (s t : string) : occurs c (s +:+ String c t) = true.
Proof.
  rewrite occurs_app. simpl. rewrite decide_True by done. apply orb_true_r.
Qed.

(** Two strings that agree and are each cut at the first [c] are cut at the
    same place. *)
Lemma split_at_first (c : ascii) (s1 s2 t1 t2 : string) :
  occurs c s1 = false → occurs c s2 = false →
  s1 +:+ String c t1 = s2 +:+ String c t2 → s1 = s2 ∧ t1 = t2.
Proof.
  revert s2. induction s1 as [|a s1 IH]; intros [|b s2]; simpl;
    intros H1 H2 H; string_app_in H.
  - by injection H.
  - injection H as <- _. by rewrite decide_True in H2.
  - injection H as -> _. by rewrite decide_True in H1.
  - injection H as -> H. destruct (decide (b = c)); [done|].
    destruct (IH s2 H1 H2 H) as [-> ->]. done.
Qed.

(** The same for the last [c]. *)
Lemma split_at_last (c : ascii) (s1 s2 t1 t2 : string) :
  occurs c t1 = false → occurs c t2 = false →
  s1 +:+ String c t1 = s2 +:+ String c t2 → s1 = s2 ∧ t1 = t2.
Proof.
  intros H1 H2. revert s2.
  induction s1 as [|a s1 IH]; intros [|b s2]; intros H; string_app_in H.
  - by injection H.
  - injection H as _ ->. by rewrite occurs_app_cons in H1.
  - injection H as _ <-. by rewrite occurs_app_cons in H2.
  - injection H as -> H. destruct (IH s2 H) as [-> ->]. done.
Qed.

(** A decimal numeral has no bracket in it. *)
Lemma pretty_N_go_no_bracket (x : N) (s : string) :
  occurs "[" s = false → occurs "[" (pretty_N_go x s) = false.
Proof.
  revert s. induction (N.lt_wf_0 x) as [x _ IH]; intros s Hs.
  destruct (decide (x = 0)%N) as [->|Hx].
  - by rewrite pretty_N_go_0.
  - rewrite pretty_N_go_step by lia. apply IH.
    + apply N.div_lt; lia.
    + simpl. unfold pretty_N_char. by repeat case_match.
Qed.

Lemma pretty_nat_no_bracket (i : nat) : occurs "[" (pretty i) = false.
Proof.
  unfold pretty, pretty_nat, pretty, pretty_N.
  case_decide; [done|]. by apply pretty_N_go_no_bracket.
Qed.

(** The synthetic name determines the namespace, the name and the index as
    soon as the namespaces have no closing bracket or the names have no
    opening bracket. *)
Lemma Sprintf_rule_name_inj (ns1 n1 ns2 n2 : string) (i1 i2 : nat) :
  (occurs "]" ns1 = false ∧ occurs "]" ns2 = false)
  ∨ (occurs "[" n1 = false ∧ occurs "[" n2 = false) →
  Sprintf_rule_name ns1 n1 i1 = Sprintf_rule_name ns2 n2 i2 →
  ns1 = ns2 ∧ n1 = n2 ∧ i1 = i2.
Proof.
  unfold Sprintf_rule_name. intros Hb H. string_app_in H. injection H as H.
  assert (Hd : ∀ i : nat, occurs "[" (pretty i +:+ "]") = false).
  { intros i. rewrite occurs_app, pretty_nat_no_bracket. done. }
  destruct Hb as [[Hn1 Hn2]|[Hn1 Hn2]].
  - apply split_at_first in H as [-> H]; [|done..].
    injection H as H.
    change (n1 +:+ "]-rule" +:+ String "[" (pretty i1 +:+ "]")
            = n2 +:+ "]-rule" +:+ String "[" (pretty i2 +:+ "]")) in H.
    rewrite <-!string_app_assoc in H.
    apply split_at_last in H as [H Hi]; [|done..].
    apply string_app_inv_tail in H, Hi.
    by apply (inj pretty) in Hi as ->.
  - change (ns1 +:+ "]-policy[" +:+ n1 +:+ "]-rule" +:+ String "[" (pretty i1 +:+ "]")
            = ns2 +:+ "]-policy[" +:+ n2 +:+ "]-rule" +:+ String "[" (pretty i2 +:+ "]")) in H.
    rewrite <-!string_app_assoc in H.
    apply split_at_last in H as [H Hi]; [|done..].
    apply string_app_inv_tail in H, Hi.
    apply (inj pretty) in Hi as ->.
    rewrite !string_app_assoc in H.
    change (ns1 +:+ "]-policy" +:+ String "[" n1
            = ns2 +:+ "]-policy" +:+ String "[" n2) in H.
    rewrite <-!string_app_assoc in H.
    apply split_at_last in H as [H ->]; [|done..].
    by apply string_app_inv_tail in H as ->.
Qed.

Lemma Sprintf_rule_name_index_inj (ns n : string) (i1 i2 : nat) :
  Sprintf_rule_name ns n i1 = Sprintf_rule_name ns n i2 → i1 = i2.
Proof.
  unfold Sprintf_rule_name. intros H.
  do 5 apply (inj (String.app _)) in H.
  apply string_app_inv_tail in H. by apply (inj pretty) in H.
Qed.

(** ** The log monad *)

Lemma appends_ret {A : Type} (a : A) : appends (mret a) a.
Proof. exists []. intros l. by rewrite app_nil_r. Qed.

Lemma appends_bind {A B : Type} (m : M A) (f : A → M B) (a : A) (b : B) :
  appends m a → appends (f a) b → appends (m ≫= f) b.
Proof.
  intros [w1 H1] [w2 H2]. exists (w1 ++ w2). intros l.
  unfold mbind, M_bind. rewrite H1. simpl. rewrite H2. by rewrite app_assoc.
Qed.

Lemma appends_Errorf (fmt : string) (a : list LogArg) : appends (Errorf fmt a) tt.
Proof. by eexists. Qed.

Lemma appends_Debugf (fmt : string) (a : list LogArg) : appends (Debugf fmt a) tt.
Proof. by eexists. Qed.

Lemma appends_fst {A : Type} (m : M A) (a : A) (l : Log) : appends m a → (m l).1 = a.
Proof. intros [w H]. by rewrite H. Qed.

(** ** [build] makes the insertions of [policies_entries] *)

Lemma insert_entries_app (es1 es2 : list (string * Policy)) (rules : rbacpb_RBAC Policy) :
  insert_entries (es1 ++ es2) rules = insert_entries es2 (insert_entries es1 rules).
Proof. apply foldl_app. Qed.

Lemma build_rule_spec policy tdBundle forTCP forDeny rules i rule :
  appends (build_rule policy tdBundle forTCP forDeny rules i rule)
    (insert_entries (rule_entry policy tdBundle forTCP forDeny i rule) rules).
Proof.
  unfold build_rule, rule_entry, rule_generated.
  destruct rule as [r|].
  - destruct (authzmodel_New r) as [m [e|]].
    + eapply appends_bind; [apply appends_Errorf|apply appends_ret].
    + destruct (Generate (MigrateTrustDomain m tdBundle) forTCP forDeny)
        as [generated [e|]].
      * eapply appends_bind; [apply appends_Errorf|apply appends_ret].
      * destruct generated as [g|]; [|apply appends_ret].
        eapply appends_bind; [apply appends_Debugf|apply appends_ret].
  - eapply appends_bind; [apply appends_Errorf|apply appends_ret].
Qed.

Lemma build_rules_spec policy tdBundle forTCP forDeny i rs rules :
  appends (build_rules policy tdBundle forTCP forDeny i rs rules)
    (insert_entries (rules_entries policy tdBundle forTCP forDeny i rs) rules).
Proof.
  revert i rules. induction rs as [|rule rs IH]; intros i rules; simpl.
  - apply appends_ret.
  - rewrite insert_entries_app.
    eapply appends_bind; [apply build_rule_spec|apply IH].
Qed.

Lemma build_policies_spec policies tdBundle forTCP forDeny rules :
  appends (build_policies policies tdBundle forTCP forDeny rules)
    (insert_entries (policies_entries policies tdBundle forTCP forDeny) rules).
Proof.
  revert rules. induction policies as [|policy policies IH]; intros rules; simpl.
  - apply appends_ret.
  - rewrite insert_entries_app.
    eapply appends_bind; [apply build_rules_spec|apply IH].
Qed.

Lemma build_spec policies tdBundle forTCP forDeny :
  appends (build policies tdBundle forTCP forDeny)
    (build_result policies tdBundle forTCP forDeny).
Proof.
  unfold build, build_result. destruct policies as [|policy policies].
  - apply appends_ret.
  - change (length (policy :: policies) =? 0) with false. cbv iota.
    eapply appends_bind; [apply build_policies_spec|apply appends_ret].
Qed.

Lemma insert_entries_Action es rules : Action (insert_entries es rules) = Action rules.
Proof.
  revert rules. induction es as [|e es IH]; intros rules; [done|].
  unfold insert_entries in *. simpl. by rewrite IH.
Qed.

Lemma insert_entries_cons e es rules :
  insert_entries (e :: es) rules = insert_entries es (set_policy rules e.1 (Some e.2)).
Proof. done. Qed.

(** A key that is not inserted keeps its value. *)
Lemma insert_entries_lookup_ne es rules k :
  k ∉ es.*1 → Policies (insert_entries es rules) !! k = Policies rules !! k.
Proof.
  revert rules. induction es as [|[k' g] es IH]; intros rules Hk; [done|].
  rewrite insert_entries_cons. rewrite fmap_cons in Hk.
  apply not_elem_of_cons in Hk as [Hne Hk].
  rewrite IH by done. simpl. by rewrite lookup_insert_ne.
Qed.

(** A value of the map was there before or was inserted. *)
Lemma insert_entries_lookup_Some es rules k v :
  Policies (insert_entries es rules) !! k = Some v →
  Policies rules !! k = Some v ∨ ∃ g, v = Some g ∧ (k, g) ∈ es.
Proof.
  revert rules. induction es as [|[k' g] es IH]; intros rules H; [by left|].
  rewrite insert_entries_cons in H. apply IH in H as [H|(g' & -> & H)].
  - simpl in H. destruct (decide (k' = k)) as [->|Hne].
    + rewrite lookup_insert_eq in H. injection H as <-.
      right. exists g. split; [done|]. apply elem_of_cons. by left.
    + rewrite lookup_insert_ne in H by done. by left.
  - right. exists g'. split; [done|]. apply elem_of_cons. by right.
Qed.

(** With pairwise distinct keys every insertion survives. *)
Lemma insert_entries_lookup_NoDup es rules k g :
  NoDup es.*1 → (k, g) ∈ es → Policies (insert_entries es rules) !! k = Some (Some g).
Proof.
  revert rules. induction es as [|[k' g'] es IH]; intros rules Hnd Hin.
  - by apply elem_of_nil in Hin.
  - rewrite fmap_cons in Hnd. apply NoDup_cons in Hnd as [Hk' Hnd].
    rewrite insert_entries_cons. apply elem_of_cons in Hin as [[= -> ->]|Hin].
    + rewrite insert_entries_lookup_ne by done. simpl. apply lookup_insert_eq.
    + by apply IH.
Qed.

Lemma insert_entries_size_NoDup es rules :
  NoDup es.*1 → (∀ k, k ∈ es.*1 → Policies rules !! k = None) →
  size (Policies (insert_entries es rules)) = size (Policies rules) + length es.
Proof.
  revert rules. induction es as [|[k g] es IH]; intros rules Hnd Hfresh.
  - simpl. lia.
  - rewrite fmap_cons in Hnd. apply NoDup_cons in Hnd as [Hk Hnd].
    rewrite insert_entries_cons, IH; [|done|].
    + simpl. rewrite map_size_insert_None; [lia|].
      apply Hfresh. rewrite fmap_cons. apply elem_of_cons. by left.
    + intros k' Hk'. simpl. rewrite lookup_insert_ne by (intros ->; done).
      apply Hfresh. rewrite fmap_cons. apply elem_of_cons. by right.
Qed.

(** ** Where the insertions come from *)

Lemma elem_of_rule_entry policy tdBundle forTCP forDeny i rule k g :
  (k, g) ∈ rule_entry policy tdBundle forTCP forDeny i rule ↔
  rule_generated tdBundle forTCP forDeny rule = Some g
  ∧ k = Sprintf_rule_name (Namespace policy) (Name policy) i.
Proof.
  unfold rule_entry. destruct (rule_generated _ _ _ rule) as [g'|].
  - rewrite list_elem_of_singleton. split.
    + by intros [= -> ->].
    + by intros [[= ->] ->].
  - rewrite elem_of_nil. split; [done|]. by intros [? _].
Qed.

Lemma elem_of_rules_entries policy tdBundle forTCP forDeny i rs k g :
  (k, g) ∈ rules_entries policy tdBundle forTCP forDeny i rs ↔
  ∃ j rule, rs !! j = Some rule
    ∧ rule_generated tdBundle forTCP forDeny rule = Some g
    ∧ k = Sprintf_rule_name (Namespace policy) (Name policy) (i + j).
Proof.
  revert i. induction rs as [|rule rs IH]; intros i; simpl.
  - rewrite elem_of_nil. split; [done|]. by intros (j & rule & ? & _).
  - rewrite elem_of_app, elem_of_rule_entry, IH. split.
    + intros [[Hg ->]|(j & rule' & Hj & Hg & ->)].
      * exists 0, rule. by rewrite Nat.add_0_r.
      * exists (S j), rule'. by rewrite Nat.add_succ_r.
    + intros ([|j] & rule' & Hj & Hg & ->); simpl in Hj.
      * injection Hj as <-. left. by rewrite Nat.add_0_r.
      * right. exists j, rule'. by rewrite Nat.add_succ_r.
Qed.

Lemma elem_of_policies_entries policies tdBundle forTCP forDeny k g :
  (k, g) ∈ policies_entries policies tdBundle forTCP forDeny ↔
  ∃ n policy j rule, policies !! n = Some policy
    ∧ Rules (AuthorizationPolicy policy) !! j = Some rule
    ∧ rule_generated tdBundle forTCP forDeny rule = Some g
    ∧ k = Sprintf_rule_name (Namespace policy) (Name policy) j.
Proof.
  induction policies as [|policy policies IH]; simpl.
  - rewrite elem_of_nil. split; [done|]. by intros (n & policy & j & rule & ? & _).
  - rewrite elem_of_app, IH. unfold policy_entries.
    rewrite elem_of_rules_entries. split.
    + intros [(j & rule & ? & ? & ->)|(n & p' & j & rule & ? & ? & ? & ->)].
      * by exists 0, policy, j, rule.
      * by exists (S n), p', j, rule.
    + intros ([|n] & p' & j & rule & Hn & ? & ? & ->); simpl in Hn.
      * injection Hn as <-. left. by exists j, rule.
      * right. by exists n, p', j, rule.
Qed.

(** ** Distinct synthetic names *)

Lemma names_unambiguous_spec policies :
  names_unambiguous policies = true →
  (∀ policy, policy ∈ policies → occurs "]" (Namespace policy) = false)
  ∨ (∀ policy, policy ∈ policies → occurs "[" (Name policy) = false).
Proof.
  unfold names_unambiguous. intros [H|H]%orb_true_iff; [left|right];
    intros policy Hin%list_elem_of_In;
    apply (proj1 (forallb_forall _ _) H) in Hin;
    by apply negb_true_iff in Hin.
Qed.

Lemma names_unambiguous_tail policy policies :
  names_unambiguous (policy :: policies) = true → names_unambiguous policies = true.
Proof.
  unfold names_unambiguous. simpl.
  intros [[_ H]%andb_true_iff|[_ H]%andb_true_iff]%orb_true_iff; rewrite H;
    [done|apply orb_true_r].
Qed.

(** Under the condition, equal synthetic names come from the same policy
    identity and the same index. *)
Lemma Sprintf_rule_name_policies_inj policies p1 p2 i1 i2 :
  names_unambiguous policies = true → p1 ∈ policies → p2 ∈ policies →
  Sprintf_rule_name (Namespace p1) (Name p1) i1
  = Sprintf_rule_name (Namespace p2) (Name p2) i2 →
  policy_id p1 = policy_id p2 ∧ i1 = i2.
Proof.
  intros Hu H1 H2 Heq. unfold policy_id.
  apply Sprintf_rule_name_inj in Heq as (-> & -> & ->); [done|].
  destruct (names_unambiguous_spec _ Hu) as [H|H]; [left|right]; auto.
Qed.

Lemma elem_of_keys (es : list (string * Policy)) (k : string) :
  k ∈ es.*1 ↔ ∃ g, (k, g) ∈ es.
Proof.
  rewrite list_elem_of_fmap. split.
  - intros ([k' g] & -> & H). by exists g.
  - intros [g H]. by exists (k, g).
Qed.

(** Within one policy the names differ by their index. *)
Lemma rules_entries_NoDup policy tdBundle forTCP forDeny i rs :
  NoDup (rules_entries policy tdBundle forTCP forDeny i rs).*1.
Proof.
  revert i. induction rs as [|rule rs IH]; intros i; simpl; [constructor|].
  rewrite fmap_app. apply NoDup_app. split_and!.
  - unfold rule_entry. destruct (rule_generated _ _ _ rule); simpl.
    + apply NoDup_singleton.
    + constructor.
  - intros k [g Hg]%elem_of_keys [g' Hg']%elem_of_keys.
    apply elem_of_rule_entry in Hg as [_ ->].
    apply elem_of_rules_entries in Hg' as (j & rule' & _ & _ & Heq).
    apply Sprintf_rule_name_index_inj in Heq. lia.
  - apply IH.
Qed.

Lemma policies_entries_NoDup policies tdBundle forTCP forDeny :
  NoDup (policy_id <$> policies) → names_unambiguous policies = true →
  NoDup (policies_entries policies tdBundle forTCP forDeny).*1.
Proof.
  induction policies as [|policy policies IH]; intros Hid Hu; simpl; [constructor|].
  rewrite fmap_cons in Hid. apply NoDup_cons in Hid as [Hfresh Hid].
  rewrite fmap_app. apply NoDup_app. split_and!.
  - apply rules_entries_NoDup.
  - intros k [g Hg]%elem_of_keys [g' Hg']%elem_of_keys.
    apply elem_of_rules_entries in Hg as (j & rule & _ & _ & ->).
    apply elem_of_policies_entries in Hg' as (n & p' & j' & rule' & Hn & _ & _ & Heq).
    apply list_elem_of_lookup_2 in Hn.
    apply (Sprintf_rule_name_policies_inj (policy :: policies)) in Heq as [Heq _];
      [|done|by left|by right].
    apply Hfresh. rewrite Heq. by apply list_elem_of_fmap_2.
  - apply IH; [done|]. by eapply names_unambiguous_tail.
Qed.

(** ** Entries of concatenated inputs *)

Lemma rules_entries_app policy tdBundle forTCP forDeny i rs1 rs2 :
  rules_entries policy tdBundle forTCP forDeny i (rs1 ++ rs2)
  = rules_entries policy tdBundle forTCP forDeny i rs1
    ++ rules_entries policy tdBundle forTCP forDeny (i + length rs1) rs2.
Proof.
  revert i. induction rs1 as [|rule rs1 IH]; intros i; simpl.
  - by rewrite Nat.add_0_r.
  - rewrite IH, <-app_assoc. by rewrite Nat.add_succ_r.
Qed.

Lemma policies_entries_app ps1 ps2 tdBundle forTCP forDeny :
  policies_entries (ps1 ++ ps2) tdBundle forTCP forDeny
  = policies_entries ps1 tdBundle forTCP forDeny
    ++ policies_entries ps2 tdBundle forTCP forDeny.
Proof.
  induction ps1 as [|policy ps1 IH]; simpl; [done|]. by rewrite IH, <-app_assoc.
Qed.

Lemma rule_fails_generated tdBundle forTCP forDeny rule :
  rule_fails tdBundle forTCP forDeny rule = true →
  rule_generated tdBundle forTCP forDeny rule = None.
Proof.
  unfold rule_fails, rule_generated. destruct rule as [r|]; [|done].
  destruct (authzmodel_New r) as [m [e|]]; [done|].
  by destruct (Generate _ _ _) as [generated [e|]].
Qed.

Lemma policies_entries_nil policies tdBundle forTCP forDeny :
  (∀ policy rule, policy ∈ policies → rule ∈ Rules (AuthorizationPolicy policy) →
     rule_generated tdBundle forTCP forDeny rule = None) →
  policies_entries policies tdBundle forTCP forDeny = [].
Proof.
  intros H. apply elem_of_nil_inv. intros [k g] Hin.
  apply elem_of_policies_entries in Hin as (n & policy & j & rule & Hn & Hj & Hg & _).
  rewrite (H policy rule) in Hg; [done|..].
  - by eapply list_elem_of_lookup_2.
  - by eapply list_elem_of_lookup_2.
Qed.

Lemma build_fst policies tdBundle forTCP forDeny l :
  (build policies tdBundle forTCP forDeny l).1
  = build_result policies tdBundle forTCP forDeny.
Proof. apply appends_fst, build_spec. Qed.

(** ** Properties of [build] *)

(** C1. [build] returns absent on the empty policy list; on a non-empty list
    it returns a present ruleset, whatever the bundle and the two flags, and
    when every rule of every policy is nil or fails construction or
    generation that ruleset has an empty policies mapping. *)
Theorem build_absent_iff_no_policy policies tdBundle forTCP forDeny l :
  (policies = [] → (build policies tdBundle forTCP forDeny l).1 = None)
  ∧ (policies ≠ [] →
     ∃ rules,
       (build policies tdBundle forTCP forDeny l).1
       = Some {| http_Rules := Some rules |}
       ∧ ((∀ policy rule,
             policy ∈ policies → rule ∈ Rules (AuthorizationPolicy policy) →
             rule_fails tdBundle forTCP forDeny rule = true) →
          Policies rules = ∅)).
Proof.
  rewrite build_fst. split.
  - by intros ->.
  - intros Hne. destruct policies as [|policy policies]; [done|].
    eexists. split; [done|]. intros Hfail.
    rewrite policies_entries_nil; [by destruct forDeny|].
    intros p rule Hp Hrule. by eapply rule_fails_generated, Hfail.
Qed.

(** C8. On a non-empty policy list the ruleset returned by [build] has
    action DENY when [forDeny] is set and ALLOW otherwise, whatever [forTCP]
    and the rules are, and the run starts from a ruleset whose policies
    mapping is empty. *)
Theorem build_action policies tdBundle forTCP forDeny l :
  policies ≠ [] →
  ∃ rules,
    (build policies tdBundle forTCP forDeny l).1
    = Some {| http_Rules := Some rules |}
    ∧ Action rules = (if forDeny then RBAC_DENY else RBAC_ALLOW)
    ∧ rules = (build_policies policies tdBundle forTCP forDeny
                 (initial_rules forDeny) l).1
    ∧ Policies (initial_rules forDeny) = ∅.
Proof.
  intros Hne. rewrite build_fst.
  destruct policies as [|policy policies]; [done|].
  eexists. split; [done|]. split_and!.
  - rewrite insert_entries_Action. by destruct forDeny.
  - symmetry. apply appends_fst, build_policies_spec.
  - by destruct forDeny.
Qed.

(** C10. Every value of the policies mapping of a ruleset returned by
    [build] is a non-nil generated policy: it is the non-nil result that
    generation returned for a rule of the input, stored under that rule's
    synthetic name. *)
Theorem build_values_non_nil policies tdBundle forTCP forDeny l config rules k v :
  (build policies tdBundle forTCP forDeny l).1 = Some config →
  http_Rules config = Some rules →
  Policies rules !! k = Some v →
  ∃ g n policy j rule,
    v = Some g
    ∧ policies !! n = Some policy
    ∧ Rules (AuthorizationPolicy policy) !! j = Some rule
    ∧ rule_generated tdBundle forTCP forDeny rule = Some g
    ∧ k = Sprintf_rule_name (Namespace policy) (Name policy) j.
Proof.
  rewrite build_fst. destruct policies as [|policy policies]; [done|].
  intros [= <-] [= <-] Hk.
  apply insert_entries_lookup_Some in Hk as [Hk|(g & -> & Hin)].
  - by destruct forDeny.
  - apply (elem_of_policies_entries (policy :: policies)) in Hin
      as (n & p' & j & rule & ? & ? & ? & ?).
    by exists g, n, p', j, rule.
Qed.

(** ** [New] *)

(** C3. [New] returns absent exactly when the selector yields an empty deny
    list and an empty allow list; otherwise it returns a builder holding the
    bundle and both lists. *)
Theorem New_absent_iff_no_policy tdBundle workload namespace policies :
  (New tdBundle workload namespace policies = None ↔
   (ListAuthorizationPolicies policies namespace workload).1 = []
   ∧ (ListAuthorizationPolicies policies namespace workload).2 = [])
  ∧ (¬ ((ListAuthorizationPolicies policies namespace workload).1 = []
        ∧ (ListAuthorizationPolicies policies namespace workload).2 = []) →
     New tdBundle workload namespace policies
     = Some {| trustDomainBundle := tdBundle;
               denyPolicies :=
                 (ListAuthorizationPolicies policies namespace workload).1;
               allowPolicies :=
                 (ListAuthorizationPolicies policies namespace workload).2 |}).
Proof.
  unfold New.
  destruct (ListAuthorizationPolicies policies namespace workload) as [deny allow].
  simpl. destruct deny as [|d deny], allow as [|a allow]; simpl; split;
    try (split; [done|by intros [? ?]]); try done.
  - intros H. by destruct H.
Qed.

(** ** [BuildHTTP] and [BuildTCP] *)

Lemma BuildHTTP_spec b :
  appends (BuildHTTP b)
    (let deny := build_result (denyPolicies b) (trustDomainBundle b) false true in
     let allow := build_result (allowPolicies b) (trustDomainBundle b) false false in
     (if deny is Some _ then [createHTTPFilter deny] else [])
     ++ (if allow is Some _ then [createHTTPFilter allow] else [])).
Proof.
  unfold BuildHTTP.
  eapply appends_bind; [apply build_spec|].
  eapply appends_bind; [apply build_spec|].
  destruct (build_result (denyPolicies b) _ _ _),
    (build_result (allowPolicies b) _ _ _); apply appends_ret.
Qed.

Lemma BuildTCP_spec b :
  appends (BuildTCP b)
    (let deny := build_result (denyPolicies b) (trustDomainBundle b) true true in
     let allow := build_result (allowPolicies b) (trustDomainBundle b) true false in
     (if deny is Some _ then [createTCPFilter deny] else [])
     ++ (if allow is Some _ then [createTCPFilter allow] else [])).
Proof.
  unfold BuildTCP.
  eapply appends_bind; [apply build_spec|].
  eapply appends_bind; [apply build_spec|].
  destruct (build_result (denyPolicies b) _ _ _),
    (build_result (allowPolicies b) _ _ _); apply appends_ret.
Qed.

(** C2. [BuildHTTP] and [BuildTCP] return one filter for each of the deny
    and the allow aggregation that is present, so none, one or two, all of
    them non-nil; when both aggregations are present the filter of the deny
    aggregation is at index 0 and the filter of the allow aggregation at
    index 1. *)
Theorem Build_deny_before_allow b l :
  (let deny := (build (denyPolicies b) (trustDomainBundle b) false true l).1 in
   let allow := (build (allowPolicies b) (trustDomainBundle b) false false l).1 in
   let filters := (BuildHTTP b l).1 in
   length filters = (if deny is Some _ then 1 else 0) + (if allow is Some _ then 1 else 0)
   ∧ filters = (if deny is Some _ then [createHTTPFilter deny] else [])
               ++ (if allow is Some _ then [createHTTPFilter allow] else [])
   ∧ (∀ f, f ∈ filters → is_Some f)
   ∧ (is_Some deny → is_Some allow →
      filters !! 0 = Some (createHTTPFilter deny)
      ∧ filters !! 1 = Some (createHTTPFilter allow)))
  ∧ (let deny := (build (denyPolicies b) (trustDomainBundle b) true true l).1 in
     let allow := (build (allowPolicies b) (trustDomainBundle b) true false l).1 in
     let filters := (BuildTCP b l).1 in
     length filters = (if deny is Some _ then 1 else 0) + (if allow is Some _ then 1 else 0)
     ∧ filters = (if deny is Some _ then [createTCPFilter deny] else [])
                 ++ (if allow is Some _ then [createTCPFilter allow] else [])
     ∧ (∀ f, f ∈ filters → is_Some f)
     ∧ (is_Some deny → is_Some allow →
        filters !! 0 = Some (createTCPFilter deny)
        ∧ filters !! 1 = Some (createTCPFilter allow))).
Proof.
  cbv zeta. rewrite !build_fst.
  rewrite (appends_fst _ _ l (BuildHTTP_spec b)).
  rewrite (appends_fst _ _ l (BuildTCP_spec b)).
  split.
  - destruct (build_result (denyPolicies b) _ _ _) as [d|],
      (build_result (allowPolicies b) _ _ _) as [a|]; simpl;
      (split_and!; [done|done| |]).
    all: try (intros f Hf; set_unfold in Hf; destruct_or?; subst; by eexists).
    all: try (intros [? ?] [? ?]; done).
  - destruct (build_result (denyPolicies b) _ _ _) as [d|],
      (build_result (allowPolicies b) _ _ _) as [a|]; simpl;
      (split_and!; [done|done| |]).
    all: try (intros f Hf; set_unfold in Hf; destruct_or?; subst; by eexists).
    all: try (intros [? ?] [? ?]; done).
Qed.

(** C5. A rule that is nil, or whose model cannot be constructed, or whose
    generation fails, only drops its own entry: the run completes with a
    ruleset whose insertions are those of the policies before it, of the
    rules before it and after it in its policy, at their own indices, and of
    the policies after it. [build], [BuildHTTP] and [BuildTCP] always return
    a value, having only added diagnostics to the log. *)
Theorem rule_failure_isolated ps1 policy ps2 rs1 rule rs2 tdBundle forTCP forDeny l :
  Rules (AuthorizationPolicy policy) = rs1 ++ rule :: rs2 →
  rule_fails tdBundle forTCP forDeny rule = true →
  (∀ rules l', (build_rule policy tdBundle forTCP forDeny rules (length rs1) rule l').1
               = rules)
  ∧ (∃ rules,
       (build (ps1 ++ policy :: ps2) tdBundle forTCP forDeny l).1
       = Some {| http_Rules := Some rules |}
       ∧ rules =
         insert_entries
           (policies_entries ps1 tdBundle forTCP forDeny
            ++ rules_entries policy tdBundle forTCP forDeny 0 rs1
            ++ rules_entries policy tdBundle forTCP forDeny (S (length rs1)) rs2
            ++ policies_entries ps2 tdBundle forTCP forDeny)
           (initial_rules forDeny))
  ∧ (∀ policies, ∃ result, appends (build policies tdBundle forTCP forDeny) result)
  ∧ (∀ b, ∃ filters, appends (BuildHTTP b) filters)
  ∧ (∀ b, ∃ filters, appends (BuildTCP b) filters).
Proof.
  intros Hrules Hfail. apply rule_fails_generated in Hfail. split_and!.
  - intros rules l'.
    rewrite (appends_fst _ _ l' (build_rule_spec _ _ _ _ _ _ _)).
    unfold rule_entry. by rewrite Hfail.
  - rewrite build_fst. unfold build_result.
    destruct (ps1 ++ policy :: ps2) as [|p0 ps0] eqn:Hps.
    { by destruct ps1. }
    eexists. split; [done|]. f_equal. rewrite <-Hps.
    rewrite policies_entries_app. simpl. unfold policy_entries.
    rewrite Hrules, rules_entries_app. simpl.
    unfold rule_entry at 1. rewrite Hfail. simpl.
    by rewrite <-!app_assoc.
  - intros policies. eexists. apply build_spec.
  - intros b. eexists. apply BuildHTTP_spec.
  - intros b. eexists. apply BuildTCP_spec.
Qed.

(** ** Synthetic names in the ruleset *)

Lemma rule_generated_ok tdBundle forTCP forDeny r m g :
  authzmodel_New r = (m, None) →
  Generate (MigrateTrustDomain m tdBundle) forTCP forDeny = (Some g, None) →
  rule_generated tdBundle forTCP forDeny (Some r) = Some g.
Proof. intros Hnew Hgen. unfold rule_generated. by rewrite Hnew, Hgen. Qed.

(** C4, amended. When the (namespace, name) pairs of the input are pairwise
    distinct and, in addition, no namespace contains a closing bracket or no
    name contains an opening bracket: two distinct (policy, index) pairs have
    distinct synthetic names; when [build] reaches a rule, the rule's
    synthetic name is not yet a key of the ruleset; and the returned ruleset
    has as many entries as the run made insertions, each inserted policy
    being there under its own name. *)
Theorem synthetic_names_distinct policies tdBundle forTCP forDeny :
  NoDup (policy_id <$> policies) →
  names_unambiguous policies = true →
  (∀ n1 n2 p1 p2 i1 i2,
     policies !! n1 = Some p1 → policies !! n2 = Some p2 → (n1, i1) ≠ (n2, i2) →
     Sprintf_rule_name (Namespace p1) (Name p1) i1
     ≠ Sprintf_rule_name (Namespace p2) (Name p2) i2)
  ∧ (∀ ps1 policy ps2 rs1 rule rs2 l l',
       policies = ps1 ++ policy :: ps2 →
       Rules (AuthorizationPolicy policy) = rs1 ++ rule :: rs2 →
       Policies
         (build_rules policy tdBundle forTCP forDeny 0 rs1
            (build_policies ps1 tdBundle forTCP forDeny (initial_rules forDeny) l).1
            l').1
       !! Sprintf_rule_name (Namespace policy) (Name policy) (length rs1) = None)
  ∧ (∀ l rules,
       (build policies tdBundle forTCP forDeny l).1
       = Some {| http_Rules := Some rules |} →
       size (Policies rules)
       = length (policies_entries policies tdBundle forTCP forDeny)
       ∧ ∀ k g,
           (k, g) ∈ policies_entries policies tdBundle forTCP forDeny →
           Policies rules !! k = Some (Some g)).
Proof.
  intros Hid Hu.
  assert (Hdistinct : ∀ n1 n2 p1 p2 i1 i2,
    policies !! n1 = Some p1 → policies !! n2 = Some p2 → (n1, i1) ≠ (n2, i2) →
    Sprintf_rule_name (Namespace p1) (Name p1) i1
    ≠ Sprintf_rule_name (Namespace p2) (Name p2) i2).
  { intros n1 n2 p1 p2 i1 i2 H1 H2 Hne Heq.
    apply (Sprintf_rule_name_policies_inj policies) in Heq as [Hp ->];
      [|done|by eapply list_elem_of_lookup_2..].
    apply Hne. f_equal.
    eapply (NoDup_lookup _ _ _ _ Hid); rewrite list_lookup_fmap.
    - by rewrite H1.
    - by rewrite H2, Hp. }
  split_and!; [done|..].
  - intros ps1 policy ps2 rs1 rule rs2 l l' -> Hrules.
    rewrite (appends_fst _ _ l (build_policies_spec _ _ _ _ _)).
    rewrite (appends_fst _ _ l' (build_rules_spec _ _ _ _ _ _ _)).
    rewrite <-insert_entries_app.
    destruct (Policies _ !! _) as [v|] eqn:Hv; [exfalso|done].
    apply insert_entries_lookup_Some in Hv as [Hv|(g & _ & Hin)].
    { by destruct forDeny. }
    apply elem_of_app in Hin as [Hin|Hin].
    + apply elem_of_policies_entries in Hin as (n & p' & j & rule' & Hn & _ & _ & Heq).
      apply (Hdistinct (length ps1) n policy p' (length rs1) j).
      * by rewrite list_lookup_middle.
      * by apply lookup_app_l_Some.
      * apply lookup_lt_Some in Hn. intros [= ? _]. lia.
      * done.
    + apply elem_of_rules_entries in Hin as (j & rule' & Hj & _ & Heq).
      apply lookup_lt_Some in Hj.
      apply Sprintf_rule_name_index_inj in Heq. simpl in Heq. lia.
  - intros l rules. rewrite build_fst. unfold build_result.
    destruct policies as [|policy policies]; [done|].
    intros [= <-].
    pose proof (policies_entries_NoDup (policy :: policies) tdBundle forTCP
                  forDeny Hid Hu) as Hnd.
    split.
    + rewrite insert_entries_size_NoDup; [by destruct forDeny|done|].
      intros k _. by destruct forDeny.
    + intros k g Hin. by apply insert_entries_lookup_NoDup.
Qed.

(** C6. The policy generated for the rule at index [i] of a policy is stored
    under the name made of the namespace, the policy name and [i] in
    decimal; and for one allow policy [p1] of namespace [ns1] whose single
    rule generates for HTTP and allow, [BuildHTTP] returns exactly one
    filter, whose ruleset maps that one name to the generated policy. *)
Theorem synthetic_name_format :
  (∀ policy tdBundle forTCP forDeny l i rule g,
     Rules (AuthorizationPolicy policy) !! i = Some rule →
     rule_generated tdBundle forTCP forDeny rule = Some g →
     ∃ rules,
       (build [policy] tdBundle forTCP forDeny l).1
       = Some {| http_Rules := Some rules |}
       ∧ Policies rules
         !! ("ns[" +:+ Namespace policy +:+ "]-policy[" +:+ Name policy
             +:+ "]-rule[" +:+ pretty i +:+ "]")
         = Some (Some g))
  ∧ (∀ b policy r m g l,
       denyPolicies b = [] → allowPolicies b = [policy] →
       Namespace policy = "ns1" → Name policy = "p1" →
       Rules (AuthorizationPolicy policy) = [Some r] →
       authzmodel_New r = (m, None) →
       Generate (MigrateTrustDomain m (trustDomainBundle b)) false false
       = (Some g, None) →
       (BuildHTTP b l).1
       = [createHTTPFilter
            (Some {| http_Rules :=
                       Some {| Action := RBAC_ALLOW;
                               Policies :=
                                 {[ "ns[ns1]-policy[p1]-rule[0]" := Some g ]} |} |})]).
Proof.
  split.
  - intros policy tdBundle forTCP forDeny l i rule g Hi Hg.
    rewrite build_fst. eexists. split; [done|].
    apply insert_entries_lookup_NoDup; simpl; rewrite app_nil_r.
    + apply rules_entries_NoDup.
    + apply elem_of_rules_entries. by exists i, rule.
  - intros b policy r m g l Hdeny Hallow Hns Hn Hrules Hnew Hgen.
    rewrite (appends_fst _ _ l (BuildHTTP_spec b)).
    rewrite Hdeny, Hallow. simpl. unfold policy_entries, rule_entry.
    rewrite Hrules. simpl. unfold rule_entry.
    rewrite (rule_generated_ok _ _ _ _ _ _ Hnew Hgen), Hns, Hn.
    do 4 f_equal.
Qed.

(** ** Further properties of the synthetic names *)

(** X1. Two synthetic names are equal exactly when the indices are equal and
    the namespace and the name, joined by the text between them, read the
    same: the index can always be read back, the namespace and the name only
    up to where the joining text stands. *)
Theorem Sprintf_rule_name_eq_iff (ns1 n1 ns2 n2 : string) (i1 i2 : nat) :
  Sprintf_rule_name ns1 n1 i1 = Sprintf_rule_name ns2 n2 i2 ↔
  i1 = i2 ∧ ns1 +:+ "]-policy[" +:+ n1 = ns2 +:+ "]-policy[" +:+ n2.
Proof.
  unfold Sprintf_rule_name. split.
  - intros H. string_app_in H. injection H as H.
    change (ns1 +:+ "]-policy[" +:+ n1 +:+ "]-rule" +:+ String "[" (pretty i1 +:+ "]")
            = ns2 +:+ "]-policy[" +:+ n2 +:+ "]-rule" +:+ String "[" (pretty i2 +:+ "]"))
      in H.
    rewrite <-!string_app_assoc in H.
    apply split_at_last in H as [H Hi].
    + apply string_app_inv_tail in H, Hi.
      apply (inj pretty) in Hi. split; [done|].
      by rewrite !string_app_assoc in H.
    + by rewrite occurs_app, pretty_nat_no_bracket.
    + by rewrite occurs_app, pretty_nat_no_bracket.
  - intros [-> H].
    assert (Hassoc : ∀ ns n rest : string,
      ns +:+ "]-policy[" +:+ n +:+ rest = (ns +:+ "]-policy[" +:+ n) +:+ rest).
    { intros ns n rest. by rewrite !string_app_assoc. }
    by rewrite (Hassoc ns1), (Hassoc ns2), H.
Qed.

(** ** Further properties of [build] *)

Lemma rbacpb_RBAC_eq (r1 r2 : rbacpb_RBAC Policy) :
  Action r1 = Action r2 → Policies r1 = Policies r2 → r1 = r2.
Proof. destruct r1, r2. simpl. by intros -> ->. Qed.

Lemma insert_entries_dom es (rules : rbacpb_RBAC Policy) k :
  k ∈ dom (Policies (insert_entries es rules)) ↔ k ∈ es.*1 ∨ k ∈ dom (Policies rules).
Proof.
  revert rules. induction es as [|[k' g] es IH]; intros rules.
  - simpl. rewrite elem_of_nil. tauto.
  - rewrite insert_entries_cons, IH, fmap_cons, elem_of_cons. simpl.
    rewrite dom_insert_L, elem_of_union, elem_of_singleton. tauto.
Qed.

(** The last insertion under a key is the one that stays. *)
Lemma insert_entries_lookup_last es1 k g es2 (rules : rbacpb_RBAC Policy) :
  k ∉ es2.*1 →
  Policies (insert_entries (es1 ++ (k, g) :: es2) rules) !! k = Some (Some g).
Proof.
  intros Hk. rewrite insert_entries_app, insert_entries_cons.
  rewrite insert_entries_lookup_ne by done. simpl. apply lookup_insert_eq.
Qed.

Lemma insert_entries_size es (rules : rbacpb_RBAC Policy) :
  size (Policies (insert_entries es rules)) ≤ size (Policies rules) + length es.
Proof.
  revert rules. induction es as [|[k g] es IH]; intros rules.
  - simpl. lia.
  - rewrite insert_entries_cons. etrans; [apply IH|]. simpl.
    rewrite map_size_insert. destruct (Policies rules !! k); simpl; lia.
Qed.

(** The insertions on [rules] are the insertions on the empty map, laid over
    the map of [rules]. *)
Lemma insert_entries_union es (rules : rbacpb_RBAC Policy) forDeny :
  Policies (insert_entries es rules)
  = Policies (insert_entries es (initial_rules forDeny)) ∪ Policies rules.
Proof.
  assert (Hgen : ∀ (m : gmap string (option Policy)) (r r' : rbacpb_RBAC Policy),
    Policies r = Policies r' ∪ m →
    Policies (insert_entries es r) = Policies (insert_entries es r') ∪ m).
  { induction es as [|[k g] es IH]; intros m r r' Hr; [done|].
    rewrite !insert_entries_cons. apply IH. simpl.
    by rewrite Hr, insert_union_l. }
  apply Hgen. destruct forDeny; simpl; by rewrite (left_id_L ∅ (∪)).
Qed.

Lemma rules_entries_length policy tdBundle forTCP forDeny i rs :
  length (rules_entries policy tdBundle forTCP forDeny i rs) ≤ length rs.
Proof.
  revert i. induction rs as [|rule rs IH]; intros i; simpl; [done|].
  rewrite length_app. specialize (IH (S i)). unfold rule_entry.
  destruct (rule_generated _ _ _ rule); simpl; lia.
Qed.

Lemma policies_entries_length policies tdBundle forTCP forDeny :
  length (policies_entries policies tdBundle forTCP forDeny) ≤ policies_rules policies.
Proof.
  unfold policies_rules.
  induction policies as [|policy policies IH]; simpl; [done|].
  rewrite length_app. unfold policy_entries.
  pose proof (rules_entries_length policy tdBundle forTCP forDeny 0
                (Rules (AuthorizationPolicy policy))).
  lia.
Qed.

Lemma build_fst_Some policies tdBundle forTCP forDeny l rules :
  (build policies tdBundle forTCP forDeny l).1
  = Some {| http_Rules := Some rules |} →
  policies ≠ []
  ∧ rules = insert_entries (policies_entries policies tdBundle forTCP forDeny)
              (initial_rules forDeny).
Proof.
  rewrite build_fst. unfold build_result.
  destruct policies as [|policy policies]; [done|].
  intros H. split; [done|]. congruence.
Qed.

(** X2. The keys of the ruleset returned by [build] are exactly the synthetic
    names of the rules that generate a policy; when several insertions have
    the same name the last one made is the one the ruleset holds; and the
    ruleset has at most as many entries as the run made insertions, which are
    at most as many as the input has rules. *)
Theorem build_keys_last_insertion policies tdBundle forTCP forDeny l rules :
  (build policies tdBundle forTCP forDeny l).1
  = Some {| http_Rules := Some rules |} →
  (∀ k, k ∈ dom (Policies rules) ↔
        ∃ n policy j rule g,
          policies !! n = Some policy
          ∧ Rules (AuthorizationPolicy policy) !! j = Some rule
          ∧ rule_generated tdBundle forTCP forDeny rule = Some g
          ∧ k = Sprintf_rule_name (Namespace policy) (Name policy) j)
  ∧ (∀ es1 k g es2,
       policies_entries policies tdBundle forTCP forDeny = es1 ++ (k, g) :: es2 →
       k ∉ es2.*1 → Policies rules !! k = Some (Some g))
  ∧ size (Policies rules)
    ≤ length (policies_entries policies tdBundle forTCP forDeny)
  ∧ length (policies_entries policies tdBundle forTCP forDeny)
    ≤ policies_rules policies.
Proof.
  intros [_ ->]%build_fst_Some. split_and!.
  - intros k. rewrite insert_entries_dom, elem_of_keys. split.
    + intros [[g Hin]|Hin].
      * apply elem_of_policies_entries in Hin as (n & p' & j & rule & ? & ? & ? & ?).
        by exists n, p', j, rule, g.
      * destruct forDeny; simpl in Hin; by apply not_elem_of_empty in Hin.
    + intros (n & p' & j & rule & g & ? & ? & ? & ?). left. exists g.
      apply elem_of_policies_entries. by exists n, p', j, rule.
  - intros es1 k g es2 Hes Hk. rewrite Hes.
    by apply insert_entries_lookup_last.
  - etrans; [apply insert_entries_size|]. by destruct forDeny.
  - apply policies_entries_length.
Qed.

(** X3. The loop of [build] keeps the action of the ruleset it works on,
    never removes a key, leaves every key that is not the synthetic name of
    a rule of the input as it was, and keeps all values non-nil when they
    were so. *)
Theorem build_policies_preserves policies tdBundle forTCP forDeny rules0 l :
  let rules := (build_policies policies tdBundle forTCP forDeny rules0 l).1 in
  Action rules = Action rules0
  ∧ dom (Policies rules0) ⊆ dom (Policies rules)
  ∧ (∀ k,
       (∀ n policy j,
          policies !! n = Some policy →
          j < length (Rules (AuthorizationPolicy policy)) →
          k ≠ Sprintf_rule_name (Namespace policy) (Name policy) j) →
       Policies rules !! k = Policies rules0 !! k)
  ∧ ((∀ k v, Policies rules0 !! k = Some v → is_Some v) →
     ∀ k v, Policies rules !! k = Some v → is_Some v).
Proof.
  intros rules. unfold rules.
  rewrite (appends_fst _ _ l (build_policies_spec _ _ _ _ _)). split_and!.
  - apply insert_entries_Action.
  - intros k Hk. apply insert_entries_dom. by right.
  - intros k Hk. apply insert_entries_lookup_ne.
    intros [g Hin]%elem_of_keys.
    apply elem_of_policies_entries in Hin as (n & policy & j & rule & Hn & Hj & _ & ->).
    apply lookup_lt_Some in Hj. by eapply Hk.
  - intros Hnil k v Hkv.
    apply insert_entries_lookup_Some in Hkv as [Hkv|(g & -> & _)]; [by eapply Hnil|].
    by eexists.
Qed.

(** X4. The ruleset for two policy lists put one after the other has the
    action of both and, as its policies mapping, the mapping of the second
    list laid over the mapping of the first: an entry of the second list
    replaces an entry of the first with the same name. *)
Theorem build_app ps1 ps2 tdBundle forTCP forDeny l r1 r2 :
  (build ps1 tdBundle forTCP forDeny l).1 = Some {| http_Rules := Some r1 |} →
  (build ps2 tdBundle forTCP forDeny l).1 = Some {| http_Rules := Some r2 |} →
  (build (ps1 ++ ps2) tdBundle forTCP forDeny l).1
  = Some {| http_Rules :=
              Some {| Action := if forDeny then RBAC_DENY else RBAC_ALLOW;
                      Policies := Policies r2 ∪ Policies r1 |} |}.
Proof.
  intros [Hne1 ->]%build_fst_Some [Hne2 ->]%build_fst_Some.
  rewrite build_fst. unfold build_result.
  destruct (ps1 ++ ps2) as [|p ps] eqn:Hps.
  { by apply app_eq_nil in Hps as [-> _]. }
  rewrite <-Hps. do 3 f_equal.
  rewrite policies_entries_app, insert_entries_app.
  apply rbacpb_RBAC_eq; simpl.
  - rewrite !insert_entries_Action. by destruct forDeny.
  - apply insert_entries_union.
Qed.

(** ** Insertion order *)

Lemma policies_entries_NoDup_keys policies tdBundle forTCP forDeny :
  NoDup (policy_key <$> policies) →
  NoDup (policies_entries policies tdBundle forTCP forDeny).*1.
Proof.
  induction policies as [|policy policies IH]; intros Hkey; simpl; [constructor|].
  rewrite fmap_cons in Hkey. apply NoDup_cons in Hkey as [Hfresh Hkey].
  rewrite fmap_app. apply NoDup_app. split_and!.
  - apply rules_entries_NoDup.
  - intros k [g Hg]%elem_of_keys [g' Hg']%elem_of_keys.
    apply elem_of_rules_entries in Hg as (j & rule & _ & _ & ->).
    apply elem_of_policies_entries in Hg' as (n & p' & j' & rule' & Hn & _ & _ & Heq).
    apply Sprintf_rule_name_eq_iff in Heq as [_ Heq].
    apply Hfresh. unfold policy_key at 1. rewrite Heq.
    apply (list_elem_of_fmap_2 policy_key). by eapply list_elem_of_lookup_2.
  - by apply IH.
Qed.

Lemma policies_entries_Permutation ps ps' tdBundle forTCP forDeny :
  ps ≡ₚ ps' →
  policies_entries ps tdBundle forTCP forDeny
  ≡ₚ policies_entries ps' tdBundle forTCP forDeny.
Proof.
  induction 1 as [|p ps ps' _ IH|p1 p2 ps|ps ps' ps'' _ IH1 _ IH2]; simpl.
  - done.
  - by rewrite IH.
  - rewrite !app_assoc. f_equiv. apply Permutation_app_comm.
  - by etrans.
Qed.

Lemma insert_entries_Permutation es es' (rules : rbacpb_RBAC Policy) :
  NoDup es.*1 → es ≡ₚ es' → insert_entries es rules = insert_entries es' rules.
Proof.
  intros Hnd Hperm.
  assert (Hnd' : NoDup es'.*1) by by rewrite <-Hperm.
  apply rbacpb_RBAC_eq; [by rewrite !insert_entries_Action|].
  apply map_eq. intros k.
  destruct (decide (k ∈ es.*1)) as [Hin|Hnin].
  - apply elem_of_keys in Hin as [g Hin].
    rewrite (insert_entries_lookup_NoDup es _ k g) by done.
    rewrite (insert_entries_lookup_NoDup es' _ k g); [done|done|].
    by rewrite <-Hperm.
  - rewrite !insert_entries_lookup_ne; [done| |done].
    by rewrite <-Hperm.
Qed.

(** X5. When the policies have pairwise distinct keys (namespace and name
    joined as in the synthetic name) no insertion of a run overwrites
    another: the returned ruleset has exactly one entry for each rule that
    generates a policy, and holds that policy under the rule's name. *)
Theorem build_distinct_keys_no_overwrite policies tdBundle forTCP forDeny l rules :
  NoDup (policy_key <$> policies) →
  (build policies tdBundle forTCP forDeny l).1
  = Some {| http_Rules := Some rules |} →
  size (Policies rules) = length (policies_entries policies tdBundle forTCP forDeny)
  ∧ ∀ n policy j rule g,
      policies !! n = Some policy →
      Rules (AuthorizationPolicy policy) !! j = Some rule →
      rule_generated tdBundle forTCP forDeny rule = Some g →
      Policies rules !! Sprintf_rule_name (Namespace policy) (Name policy) j
      = Some (Some g).
Proof.
  intros Hkey [_ ->]%build_fst_Some.
  pose proof (policies_entries_NoDup_keys policies tdBundle forTCP forDeny Hkey)
    as Hnd.
  split.
  - rewrite insert_entries_size_NoDup; [by destruct forDeny|done|].
    intros k _. by destruct forDeny.
  - intros n policy j rule g Hn Hj Hg.
    apply insert_entries_lookup_NoDup; [done|].
    apply elem_of_policies_entries. by exists n, policy, j, rule.
Qed.

(** X6. When the policies have pairwise distinct keys, the order in which
    the selector lists them does not matter: [build] returns the same
    result for any rearrangement of the list. *)
Theorem build_order_irrelevant ps ps' tdBundle forTCP forDeny l :
  ps ≡ₚ ps' →
  NoDup (policy_key <$> ps) →
  (build ps tdBundle forTCP forDeny l).1 = (build ps' tdBundle forTCP forDeny l).1.
Proof.
  intros Hperm Hkey. rewrite !build_fst. unfold build_result.
  destruct ps as [|p ps0] eqn:Hps, ps' as [|p' ps0'] eqn:Hps'.
  - done.
  - by apply Permutation_nil_l in Hperm.
  - by apply Permutation_nil_r in Hperm.
  - do 3 f_equal. rewrite <-Hps, <-Hps' in *.
    apply insert_entries_Permutation.
    + by apply policies_entries_NoDup_keys.
    + by apply policies_entries_Permutation.
Qed.

(** X7. A policy none of whose rules generates a policy (it may have no
    rule at all) leaves the ruleset of the other policies as it is; alone,
    it makes [build] return a present ruleset with an empty policies
    mapping, where [build] returns absent without it. *)
Theorem build_silent_policy ps1 policy ps2 tdBundle forTCP forDeny l :
  (∀ rule, rule ∈ Rules (AuthorizationPolicy policy) →
           rule_generated tdBundle forTCP forDeny rule = None) →
  (ps1 ++ ps2 ≠ [] →
   (build (ps1 ++ policy :: ps2) tdBundle forTCP forDeny l).1
   = (build (ps1 ++ ps2) tdBundle forTCP forDeny l).1)
  ∧ (build [policy] tdBundle forTCP forDeny l).1
    = Some {| http_Rules :=
                Some {| Action := if forDeny then RBAC_DENY else RBAC_ALLOW;
                        Policies := ∅ |} |}
  ∧ (build [] tdBundle forTCP forDeny l).1 = None.
Proof.
  intros Hsilent.
  assert (Hnil : policies_entries [policy] tdBundle forTCP forDeny = []).
  { apply policies_entries_nil. intros p rule ->%list_elem_of_singleton. apply Hsilent. }
  rewrite !build_fst. unfold build_result. split_and!.
  - intros Hne.
    destruct (ps1 ++ policy :: ps2) as [|p ps] eqn:Hps; [by destruct ps1|].
    destruct (ps1 ++ ps2) as [|p' ps'] eqn:Hps'; [done|].
    rewrite <-Hps, <-Hps'. do 3 f_equal.
    change (policy :: ps2) with ([policy] ++ ps2).
    by rewrite !policies_entries_app, Hnil.
  - rewrite Hnil. by destruct forDeny.
  - done.
Qed.

(** ** Further properties of the builder and its filters *)

Lemma BuildHTTP_fst b l :
  (BuildHTTP b l).1
  = (if denyPolicies b is [] then []
     else [createHTTPFilter
             (build_result (denyPolicies b) (trustDomainBundle b) false true)])
    ++ (if allowPolicies b is [] then []
        else [createHTTPFilter
                (build_result (allowPolicies b) (trustDomainBundle b) false false)]).
Proof.
  rewrite (appends_fst _ _ l (BuildHTTP_spec b)). cbv zeta.
  by destruct (denyPolicies b), (allowPolicies b).
Qed.

Lemma BuildTCP_fst b l :
  (BuildTCP b l).1
  = (if denyPolicies b is [] then []
     else [createTCPFilter
             (build_result (denyPolicies b) (trustDomainBundle b) true true)])
    ++ (if allowPolicies b is [] then []
        else [createTCPFilter
                (build_result (allowPolicies b) (trustDomainBundle b) true false)]).
Proof.
  rewrite (appends_fst _ _ l (BuildTCP_spec b)). cbv zeta.
  by destruct (denyPolicies b), (allowPolicies b).
Qed.

(** X8. A builder returned by [New] never builds an empty filter list:
    [BuildHTTP] and [BuildTCP] return the same number of filters, one for
    each of the two policy lists that is not empty, so one or two. *)
Theorem New_builder_filters tdBundle workload namespace policies b l :
  New tdBundle workload namespace policies = Some b →
  length (BuildHTTP b l).1
  = (if denyPolicies b is [] then 0 else 1) + (if allowPolicies b is [] then 0 else 1)
  ∧ length (BuildTCP b l).1 = length (BuildHTTP b l).1
  ∧ 1 ≤ length (BuildHTTP b l).1 ≤ 2.
Proof.
  unfold New.
  destruct (ListAuthorizationPolicies policies namespace workload) as [deny allow].
  rewrite BuildHTTP_fst, BuildTCP_fst.
  destruct deny as [|d deny], allow as [|a allow]; simpl; [done|..];
    intros [= <-]; simpl; lia.
Qed.

(** X9. Every filter of [BuildHTTP] is present, carries the HTTP filter name
    and wraps the ruleset that [build] returns for the deny list (action
    DENY) or for the allow list (action ALLOW), as it is; every filter of
    [BuildTCP] is present, carries the TCP filter name and wraps such a
    ruleset together with the TCP statistics prefix. *)
Theorem Build_filter_envelopes b l :
  (∀ f, f ∈ (BuildHTTP b l).1 →
     ∃ rules,
       f = Some {| HttpFilter_Name := RBACHTTPFilterName;
                   HttpFilter_TypedConfig :=
                     MessageToAny
                       (Message_rbachttppb {| http_Rules := Some rules |}) |}
       ∧ ((Action rules = RBAC_DENY
           ∧ (build (denyPolicies b) (trustDomainBundle b) false true l).1
             = Some {| http_Rules := Some rules |})
          ∨ (Action rules = RBAC_ALLOW
             ∧ (build (allowPolicies b) (trustDomainBundle b) false false l).1
               = Some {| http_Rules := Some rules |})))
  ∧ (∀ f, f ∈ (BuildTCP b l).1 →
       ∃ rules,
         f = Some {| Filter_Name := RBACTCPFilterName;
                     Filter_TypedConfig :=
                       MessageToAny
                         (Message_rbactcppb
                            {| tcp_Rules := Some rules;
                               StatPrefix := RBACTCPFilterStatPrefix |}) |}
         ∧ ((Action rules = RBAC_DENY
             ∧ (build (denyPolicies b) (trustDomainBundle b) true true l).1
               = Some {| http_Rules := Some rules |})
            ∨ (Action rules = RBAC_ALLOW
               ∧ (build (allowPolicies b) (trustDomainBundle b) true false l).1
                 = Some {| http_Rules := Some rules |}))).
Proof.
  rewrite BuildHTTP_fst, BuildTCP_fst, !build_fst. unfold build_result. split.
  - intros f [Hf|Hf]%elem_of_app.
    + destruct (denyPolicies b) as [|d deny]; [by apply elem_of_nil in Hf|].
      apply list_elem_of_singleton in Hf as ->. eexists. split; [done|].
      left. split; [|done]. by rewrite insert_entries_Action.
    + destruct (allowPolicies b) as [|a allow]; [by apply elem_of_nil in Hf|].
      apply list_elem_of_singleton in Hf as ->. eexists. split; [done|].
      right. split; [|done]. by rewrite insert_entries_Action.
  - intros f [Hf|Hf]%elem_of_app.
    + destruct (denyPolicies b) as [|d deny]; [by apply elem_of_nil in Hf|].
      apply list_elem_of_singleton in Hf as ->. eexists. split; [done|].
      left. split; [|done]. by rewrite insert_entries_Action.
    + destruct (allowPolicies b) as [|a allow]; [by apply elem_of_nil in Hf|].
      apply list_elem_of_singleton in Hf as ->. eexists. split; [done|].
      right. split; [|done]. by rewrite insert_entries_Action.
Qed.

(** ** The diagnostics of a run *)

Lemma log_accounts_nil : log_accounts [] [] 0.
Proof. done. Qed.

Lemma log_accounts_app w1 w2 es1 es2 n1 n2 :
  log_accounts w1 es1 n1 → log_accounts w2 es2 n2 →
  log_accounts (w1 ++ w2) (es1 ++ es2) (n1 + n2).
Proof.
  intros (Hd1 & He1 & Hl1) (Hd2 & He2 & Hl2). split_and!.
  - by rewrite omap_app, Hd1, Hd2.
  - by rewrite List.filter_app, length_app, He1, He2.
  - rewrite !length_app. lia.
Qed.

Lemma build_rule_log policy tdBundle forTCP forDeny rules i rule :
  ∃ w,
    log_accounts w (rule_entry policy tdBundle forTCP forDeny i rule)
      (if rule_fails tdBundle forTCP forDeny rule then 1 else 0)
    ∧ ∀ l, (build_rule policy tdBundle forTCP forDeny rules i rule l).2 = l ++ w.
Proof.
  unfold build_rule, rule_entry, rule_generated, rule_fails.
  destruct rule as [r|].
  - destruct (authzmodel_New r) as [m [e|]].
    + eexists. split; [|intros l; reflexivity]. by repeat split.
    + destruct (Generate (MigrateTrustDomain m tdBundle) forTCP forDeny)
        as [generated [e|]].
      * eexists. split; [|intros l; reflexivity]. by repeat split.
      * destruct generated as [g|].
        -- eexists. split; [|intros l; reflexivity]. by repeat split.
        -- exists []. split; [done|]. intros l. simpl. by rewrite app_nil_r.
  - eexists. split; [|intros l; reflexivity]. by repeat split.
Qed.

Lemma build_rules_log policy tdBundle forTCP forDeny i rs rules :
  ∃ w,
    log_accounts w (rules_entries policy tdBundle forTCP forDeny i rs)
      (length (List.filter (rule_fails tdBundle forTCP forDeny) rs))
    ∧ ∀ l, (build_rules policy tdBundle forTCP forDeny i rs rules l).2 = l ++ w.
Proof.
  revert i rules. induction rs as [|rule rs IH]; intros i rules.
  - exists []. split; [apply log_accounts_nil|]. intros l. simpl. by rewrite app_nil_r.
  - destruct (build_rule_log policy tdBundle forTCP forDeny rules i rule)
      as (w1 & Hw1 & Hl1).
    destruct (IH (S i)
                (insert_entries (rule_entry policy tdBundle forTCP forDeny i rule) rules))
      as (w2 & Hw2 & Hl2).
    exists (w1 ++ w2). split.
    + pose proof (log_accounts_app _ _ _ _ _ _ Hw1 Hw2) as Hw.
      simpl. by destruct (rule_fails tdBundle forTCP forDeny rule).
    + intros l. simpl. unfold mbind, M_bind.
      rewrite (appends_fst _ _ l (build_rule_spec _ _ _ _ _ _ _)).
      by rewrite Hl2, Hl1, app_assoc.
Qed.

Lemma build_policies_log policies tdBundle forTCP forDeny rules :
  ∃ w,
    log_accounts w (policies_entries policies tdBundle forTCP forDeny)
      (policies_failures policies tdBundle forTCP forDeny)
    ∧ ∀ l, (build_policies policies tdBundle forTCP forDeny rules l).2 = l ++ w.
Proof.
  revert rules. induction policies as [|policy policies IH]; intros rules.
  - exists []. split; [apply log_accounts_nil|]. intros l. simpl. by rewrite app_nil_r.
  - destruct (build_rules_log policy tdBundle forTCP forDeny 0
                (Rules (AuthorizationPolicy policy)) rules) as (w1 & Hw1 & Hl1).
    destruct (IH (insert_entries (policy_entries tdBundle forTCP forDeny policy) rules))
      as (w2 & Hw2 & Hl2).
    exists (w1 ++ w2). split.
    + apply (log_accounts_app _ _ _ _ _ _ Hw1 Hw2).
    + intros l. simpl. unfold mbind, M_bind.
      rewrite (appends_fst _ _ l (build_rules_spec _ _ _ _ _ _ _)).
      by rewrite Hl2, Hl1, app_assoc.
Qed.

(** X10. The diagnostics of a run of [build] account for its rules: the run
    only appends to the log; the debug records it appends name, in order,
    the insertions it makes, each with the inserted policy; it appends one
    error record for each rule that is nil or fails construction or
    generation; and it appends nothing else, so a rule whose generation
    returns nil leaves no record. *)
Theorem build_diagnostics policies tdBundle forTCP forDeny l :
  ∃ w,
    (build policies tdBundle forTCP forDeny l).2 = l ++ w
    ∧ omap debug_entry w = policies_entries policies tdBundle forTCP forDeny
    ∧ length (List.filter is_error_record w)
      = policies_failures policies tdBundle forTCP forDeny
    ∧ length w
      = length (policies_entries policies tdBundle forTCP forDeny)
        + policies_failures policies tdBundle forTCP forDeny.
Proof.
  unfold build. destruct policies as [|policy policies].
  - exists []. simpl. by rewrite app_nil_r.
  - destruct (build_policies_log (policy :: policies) tdBundle forTCP forDeny
                (initial_rules forDeny)) as (w & Hw & Hl).
    exists w. split; [|exact Hw].
    change (length (policy :: policies) =? 0) with false. cbv iota.
    unfold mbind, M_bind. simpl. apply Hl.
Qed.

(** ** Nil rules *)

Lemma build_rules_app policy tdBundle forTCP forDeny i rs1 rs2 rules l :
  build_rules policy tdBundle forTCP forDeny i (rs1 ++ rs2) rules l
  = build_rules policy tdBundle forTCP forDeny (i + length rs1) rs2
      (build_rules policy tdBundle forTCP forDeny i rs1 rules l).1
      (build_rules policy tdBundle forTCP forDeny i rs1 rules l).2.
Proof.
  revert i rules l. induction rs1 as [|rule rs1 IH]; intros i rules l; simpl.
  - by rewrite Nat.add_0_r.
  - unfold mbind, M_bind. rewrite IH. by rewrite Nat.add_succ_r.
Qed.

(** C7. A nil entry of a policy's rule sequence, wherever it stands, is
    skipped with one diagnostic and without a change to the ruleset, and the
    loop goes on with the rules after it at their own indices, and then with
    the policies after it: the ruleset has the insertions of the rules after
    the nil entry under the names with their positions in the whole
    sequence. In particular, for a policy whose rules are a nil entry
    followed by a rule that constructs and generates, the ruleset has
    exactly one entry, under the name with index 1, and nothing under the
    name with index 0. *)
Theorem nil_rule_keeps_index :
  (∀ ps1 policy ps2 rs1 rs2 tdBundle forTCP forDeny l,
     Rules (AuthorizationPolicy policy) = rs1 ++ None :: rs2 →
     (∀ rules l',
        build_rule policy tdBundle forTCP forDeny rules (length rs1) None l'
        = (rules,
           l' ++ [ {| level := ErrorLevel; format := "skipped nil rule %s";
                      args := [ArgString
                                 (Sprintf_rule_name (Namespace policy)
                                    (Name policy) (length rs1))] |} ]))
     ∧ (∀ rules l',
          build_rules policy tdBundle forTCP forDeny 0 (rs1 ++ None :: rs2) rules l'
          = build_rules policy tdBundle forTCP forDeny (S (length rs1)) rs2
              (build_rules policy tdBundle forTCP forDeny 0 rs1 rules l').1
              ((build_rules policy tdBundle forTCP forDeny 0 rs1 rules l').2
               ++ [ {| level := ErrorLevel; format := "skipped nil rule %s";
                       args := [ArgString
                                  (Sprintf_rule_name (Namespace policy)
                                     (Name policy) (length rs1))] |} ]))
     ∧ ∃ rules,
         (build (ps1 ++ policy :: ps2) tdBundle forTCP forDeny l).1
         = Some {| http_Rules := Some rules |}
         ∧ rules
           = insert_entries
               (policies_entries ps1 tdBundle forTCP forDeny
                ++ rules_entries policy tdBundle forTCP forDeny 0 rs1
                ++ rules_entries policy tdBundle forTCP forDeny (S (length rs1)) rs2
                ++ policies_entries ps2 tdBundle forTCP forDeny)
               (initial_rules forDeny)
         ∧ (∀ j rule g,
              rs2 !! j = Some rule →
              rule_generated tdBundle forTCP forDeny rule = Some g →
              Sprintf_rule_name (Namespace policy) (Name policy)
                (S (length rs1) + j)
              ∈ dom (Policies rules))
         ∧ (NoDup (policy_key <$> ps1 ++ policy :: ps2) →
            ∀ j rule g,
              rs2 !! j = Some rule →
              rule_generated tdBundle forTCP forDeny rule = Some g →
              Policies rules
              !! Sprintf_rule_name (Namespace policy) (Name policy)
                   (S (length rs1) + j)
              = Some (Some g)))
  ∧ (∀ policy r m g tdBundle forTCP forDeny l,
       Rules (AuthorizationPolicy policy) = [None; Some r] →
       authzmodel_New r = (m, None) →
       Generate (MigrateTrustDomain m tdBundle) forTCP forDeny = (Some g, None) →
       ∃ rules,
         build [policy] tdBundle forTCP forDeny l
         = (Some {| http_Rules := Some rules |},
            l ++ [ {| level := ErrorLevel; format := "skipped nil rule %s";
                      args := [ArgString
                                 (Sprintf_rule_name (Namespace policy)
                                    (Name policy) 0)] |};
                   {| level := DebugLevel;
                      format := "rule %s generated policy: %+v";
                      args := [ArgString
                                 (Sprintf_rule_name (Namespace policy)
                                    (Name policy) 1);
                               ArgPolicy g] |} ])
         ∧ Policies rules
           = {[ Sprintf_rule_name (Namespace policy) (Name policy) 1 := Some g ]}
         ∧ size (Policies rules) = 1
         ∧ Policies rules
           !! Sprintf_rule_name (Namespace policy) (Name policy) 0 = None).
Proof.
  split.
  - intros ps1 policy ps2 rs1 rs2 tdBundle forTCP forDeny l Hrules.
    split_and!.
    + done.
    + intros rules l'. by rewrite build_rules_app.
    + assert (Hentries :
        policies_entries (ps1 ++ policy :: ps2) tdBundle forTCP forDeny
        = policies_entries ps1 tdBundle forTCP forDeny
          ++ rules_entries policy tdBundle forTCP forDeny 0 rs1
          ++ rules_entries policy tdBundle forTCP forDeny (S (length rs1)) rs2
          ++ policies_entries ps2 tdBundle forTCP forDeny).
      { rewrite policies_entries_app. simpl. unfold policy_entries.
        rewrite Hrules, rules_entries_app. simpl. by rewrite <-!app_assoc. }
      assert (Hlater : ∀ j rule g,
        rs2 !! j = Some rule →
        rule_generated tdBundle forTCP forDeny rule = Some g →
        (Sprintf_rule_name (Namespace policy) (Name policy) (S (length rs1) + j), g)
        ∈ policies_entries (ps1 ++ policy :: ps2) tdBundle forTCP forDeny).
      { intros j rule g Hj Hg. rewrite Hentries, !elem_of_app.
        right. right. left. apply elem_of_rules_entries. by exists j, rule. }
      rewrite build_fst. unfold build_result.
      destruct (ps1 ++ policy :: ps2) as [|p0 ps0] eqn:Hps; [by destruct ps1|].
      rewrite <-Hps, <-Hentries in *. eexists. split_and!; [done|done|..].
      * intros j rule g Hj Hg. apply insert_entries_dom. left.
        apply elem_of_keys. exists g. by eapply Hlater.
      * intros Hkey j rule g Hj Hg.
        apply insert_entries_lookup_NoDup; [|by eapply Hlater].
        by apply policies_entries_NoDup_keys.
  - intros policy r m g tdBundle forTCP forDeny l Hrules Hnew Hgen.
    eexists. split_and!.
    + unfold build. simpl. rewrite Hrules. simpl. unfold build_rule.
      rewrite Hnew, Hgen. unfold mbind, M_bind, mret, M_ret, Errorf, Debugf. simpl.
      rewrite <-app_assoc. simpl. reflexivity.
    + simpl. by destruct forDeny.
    + simpl. by rewrite map_size_insert_None; destruct forDeny.
    + simpl. rewrite lookup_insert_ne; [by destruct forDeny|].
      intros Heq. by apply Sprintf_rule_name_index_inj in Heq.
Qed.

(** ** Determinism *)

(** With collaborators that have no effect, [build_st] is [build]: the same
    result and the same log, and the state of the collaborators is left as
    it was. *)
Lemma build_rule_st_pure policy tdBundle forTCP forDeny rules i rule s :
  pure_collaborators →
  build_rule_st policy tdBundle forTCP forDeny rules i rule s
  = ((build_rule policy tdBundle forTCP forDeny rules i rule (authzLog s)).1,
     {| world := world s;
        authzLog :=
          (build_rule policy tdBundle forTCP forDeny rules i rule (authzLog s)).2 |}).
Proof.
  intros (HN & HM & HG). unfold build_rule_st, build_rule.
  destruct rule as [r|]; [|done].
  rewrite HN. destruct (authzmodel_New r) as [m [e|]]; [done|].
  simpl. rewrite HM. simpl. rewrite HG.
  destruct (Generate (MigrateTrustDomain m tdBundle) forTCP forDeny)
    as [[g|] [e|]]; done.
Qed.

Lemma build_rules_st_pure policy tdBundle forTCP forDeny i rs rules s :
  pure_collaborators →
  build_rules_st policy tdBundle forTCP forDeny i rs rules s
  = ((build_rules policy tdBundle forTCP forDeny i rs rules (authzLog s)).1,
     {| world := world s;
        authzLog :=
          (build_rules policy tdBundle forTCP forDeny i rs rules (authzLog s)).2 |}).
Proof.
  intros Hpure. revert i rules s.
  induction rs as [|rule rs IH]; intros i rules s; simpl.
  - by destruct s.
  - rewrite build_rule_st_pure by done. by rewrite IH.
Qed.

Lemma build_policies_st_pure policies tdBundle forTCP forDeny rules s :
  pure_collaborators →
  build_policies_st policies tdBundle forTCP forDeny rules s
  = ((build_policies policies tdBundle forTCP forDeny rules (authzLog s)).1,
     {| world := world s;
        authzLog :=
          (build_policies policies tdBundle forTCP forDeny rules (authzLog s)).2 |}).
Proof.
  intros Hpure. revert rules s.
  induction policies as [|policy policies IH]; intros rules s; simpl.
  - by destruct s.
  - rewrite build_rules_st_pure by done. by rewrite IH.
Qed.

Lemma build_st_pure policies tdBundle forTCP forDeny s :
  pure_collaborators →
  build_st policies tdBundle forTCP forDeny s
  = ((build policies tdBundle forTCP forDeny (authzLog s)).1,
     {| world := world s;
        authzLog := (build policies tdBundle forTCP forDeny (authzLog s)).2 |}).
Proof.
  intros Hpure. unfold build_st, build.
  destruct (length policies =? 0); [by destruct s|].
  by rewrite build_policies_st_pure.
Qed.

(** With deterministic collaborators, what the body of the loop returns does
    not depend on the state it runs in. *)
Lemma build_rule_st_deterministic policy tdBundle forTCP forDeny rules i rule s1 s2 :
  deterministic_collaborators →
  (build_rule_st policy tdBundle forTCP forDeny rules i rule s1).1
  = (build_rule_st policy tdBundle forTCP forDeny rules i rule s2).1.
Proof.
  intros (HN & HM & HG). unfold build_rule_st.
  destruct rule as [r|]; [|done].
  pose proof (HN r (world s1) (world s2)) as Hnew.
  destruct (authzmodel_New_st r (world s1)) as [[m err] w1].
  destruct (authzmodel_New_st r (world s2)) as [[m2 err2] w2].
  simpl in Hnew. injection Hnew as <- <-.
  destruct err as [e|]; [done|]. simpl.
  pose proof (HM m tdBundle w1 w2) as Hmig.
  destruct (MigrateTrustDomain_st m tdBundle w1) as [m' w1'].
  destruct (MigrateTrustDomain_st m tdBundle w2) as [m2' w2'].
  simpl in Hmig. subst m2'. simpl.
  pose proof (HG m' forTCP forDeny w1' w2') as Hgen.
  destruct (Generate_st m' forTCP forDeny w1') as [[generated gerr] w1''].
  destruct (Generate_st m' forTCP forDeny w2') as [[generated2 gerr2] w2''].
  simpl in Hgen. injection Hgen as <- <-.
  destruct gerr as [e|]; [done|]. by destruct generated.
Qed.

Lemma build_rules_st_deterministic policy tdBundle forTCP forDeny i rs rules s1 s2 :
  deterministic_collaborators →
  (build_rules_st policy tdBundle forTCP forDeny i rs rules s1).1
  = (build_rules_st policy tdBundle forTCP forDeny i rs rules s2).1.
Proof.
  intros Hdet. revert i rules s1 s2.
  induction rs as [|rule rs IH]; intros i rules s1 s2; simpl; [done|].
  pose proof (build_rule_st_deterministic policy tdBundle forTCP forDeny rules i
                rule s1 s2 Hdet) as Hrule.
  destruct (build_rule_st policy tdBundle forTCP forDeny rules i rule s1)
    as [rules1 s1'].
  destruct (build_rule_st policy tdBundle forTCP forDeny rules i rule s2)
    as [rules2 s2'].
  simpl in Hrule. subst rules2. apply IH.
Qed.

Lemma build_policies_st_deterministic policies tdBundle forTCP forDeny rules s1 s2 :
  deterministic_collaborators →
  (build_policies_st policies tdBundle forTCP forDeny rules s1).1
  = (build_policies_st policies tdBundle forTCP forDeny rules s2).1.
Proof.
  intros Hdet. revert rules s1 s2.
  induction policies as [|policy policies IH]; intros rules s1 s2; simpl; [done|].
  pose proof (build_rules_st_deterministic policy tdBundle forTCP forDeny 0
                (Rules (AuthorizationPolicy policy)) rules s1 s2 Hdet) as Hrules.
  destruct (build_rules_st policy tdBundle forTCP forDeny 0 _ rules s1)
    as [rules1 s1'].
  destruct (build_rules_st policy tdBundle forTCP forDeny 0 _ rules s2)
    as [rules2 s2'].
  simpl in Hrules. subst rules2. apply IH.
Qed.

(** C9. [build] is deterministic. With collaborators that may read and
    change a state of their own, and under the assumption that what rule-model
    construction, migration and generation return does not depend on that
    state: two runs of [build] on the same policies, bundle and flags, from
    any two states of the collaborators and of the log, and in particular a
    second run that follows a first, return results that are both absent or
    are rulesets with the same action, the same keys and the same generated
    policy under each key. *)
Theorem build_deterministic policies tdBundle forTCP forDeny s1 s2 :
  deterministic_collaborators →
  (build_st policies tdBundle forTCP forDeny s1).1
  = (build_st policies tdBundle forTCP forDeny s2).1
  ∧ (build_st policies tdBundle forTCP forDeny
       (build_st policies tdBundle forTCP forDeny s1).2).1
    = (build_st policies tdBundle forTCP forDeny s1).1
  ∧ match (build_st policies tdBundle forTCP forDeny s1).1,
          (build_st policies tdBundle forTCP forDeny s2).1 with
    | None, None => True
    | Some c1, Some c2 =>
        ∃ r1 r2, http_Rules c1 = Some r1 ∧ http_Rules c2 = Some r2
          ∧ Action r1 = Action r2
          ∧ dom (Policies r1) = dom (Policies r2)
          ∧ ∀ k, Policies r1 !! k = Policies r2 !! k
    | _, _ => False
    end.
Proof.
  intros Hdet.
  assert (Hany : ∀ s s',
    (build_st policies tdBundle forTCP forDeny s).1
    = (build_st policies tdBundle forTCP forDeny s').1).
  { intros s s'. unfold build_st.
    destruct (length policies =? 0); [done|].
    pose proof (build_policies_st_deterministic policies tdBundle forTCP forDeny
                  (initial_rules forDeny) s s' Hdet) as Hrules.
    destruct (build_policies_st policies tdBundle forTCP forDeny _ s) as [rules1 t1].
    destruct (build_policies_st policies tdBundle forTCP forDeny _ s') as [rules2 t2].
    simpl in Hrules. by subst rules2. }
  split_and!; [apply Hany|apply Hany|].
  rewrite (Hany s2 s1).
  destruct (build_st policies tdBundle forTCP forDeny s1).1 as [[[rules|]]|] eqn:Hb.
  - by exists rules, rules.
  - exfalso. revert Hb. unfold build_st.
    destruct (length policies =? 0); [done|].
    by destruct (build_policies_st policies tdBundle forTCP forDeny _ s1).
  - done.
Qed.

End authz.

(** ** The properties on the sample instance *)

(** C4 as stated fails: the two policies of [colliding_policies] have
    distinct (namespace, name) pairs, yet their rules at index 0 get the
    same synthetic name; [build] makes two insertions under that name, the
    second on a key that is already present, and returns a ruleset with the
    one entry of the second policy. *)
Lemma synthetic_names_collide :
  NoDup (policy_id <$> colliding_policies)
  ∧ colliding_policies !! 0 = Some (sample_policy "a]-policy[b" "c" [Some 3])
  ∧ colliding_policies !! 1 = Some (sample_policy "a" "b]-policy[c" [Some 4])
  ∧ Sprintf_rule_name "a]-policy[b" "c" 0 = Sprintf_rule_name "a" "b]-policy[c" 0
  ∧ policies_entries sample_New sample_Migrate sample_Generate
      colliding_policies tt false false
    = [("ns[a]-policy[b]-policy[c]-rule[0]", 3);
       ("ns[a]-policy[b]-policy[c]-rule[0]", 4)]
  ∧ Policies
      (build_policies sample_New sample_Migrate sample_Generate
         [sample_policy "a]-policy[b" "c" [Some 3]] tt false false
         (initial_rules false) []).1
    !! "ns[a]-policy[b]-policy[c]-rule[0]" = Some (Some 3)
  ∧ (build sample_New sample_Migrate sample_Generate
       colliding_policies tt false false []).1
    = Some {| http_Rules :=
                Some {| Action := RBAC_ALLOW;
                        Policies :=
                          {[ "ns[a]-policy[b]-policy[c]-rule[0]" := Some 4 ]} |} |}.
Proof.
  split_and!.
  - apply (bool_decide_unpack _). by vm_compute.
  - reflexivity.
  - reflexivity.
  - by vm_compute.
  - by vm_compute.
  - by vm_compute.
  - by vm_compute.
Qed.

(** C1 on the sample instance: no policy, and one policy whose three rules
    are nil, not constructible and not generable. *)
Lemma build_absent_iff_no_policy_witness :
  (build sample_New sample_Migrate sample_Generate [] tt false false []).1 = None
  ∧ ∃ rules,
      (build sample_New sample_Migrate sample_Generate
         [sample_policy "ns1" "p1" [None; Some 0; Some 1]] tt true true []).1
      = Some {| http_Rules := Some rules |}
      ∧ Policies rules = ∅.
Proof.
  split.
  - by apply (build_absent_iff_no_policy sample_New sample_Migrate sample_Generate).
  - destruct (proj2 (build_absent_iff_no_policy sample_New sample_Migrate
                       sample_Generate
                       [sample_policy "ns1" "p1" [None; Some 0; Some 1]]
                       tt true true []))
      as (rules & Hbuild & Hempty); [done|].
    exists rules. split; [exact Hbuild|]. apply Hempty.
    intros policy rule ->%list_elem_of_singleton Hrule. simpl in Hrule.
    repeat (apply elem_of_cons in Hrule as [->|Hrule]; [reflexivity|]).
    by apply elem_of_nil in Hrule.
Defined.

(** C2 on the sample instance: one deny policy and one allow policy, each
    with one rule that generates. *)
Lemma Build_deny_before_allow_witness :
  let b := {| trustDomainBundle := tt;
              denyPolicies := [sample_policy "ns1" "deny" [Some 3]];
              allowPolicies := [sample_policy "ns1" "allow" [Some 4]] |} in
  length (BuildHTTP sample_New sample_Migrate sample_Generate sample_MessageToAny
            "envoy.filters.http.rbac" b []).1 = 2
  ∧ (BuildHTTP sample_New sample_Migrate sample_Generate sample_MessageToAny
       "envoy.filters.http.rbac" b []).1 !! 0
    = Some (Some {| HttpFilter_Name := "envoy.filters.http.rbac";
                    HttpFilter_TypedConfig :=
                      Message_rbachttppb
                        {| http_Rules :=
                             Some {| Action := RBAC_DENY;
                                     Policies :=
                                       {[ "ns[ns1]-policy[deny]-rule[0]"
                                          := Some 3 ]} |} |} |})
  ∧ (BuildHTTP sample_New sample_Migrate sample_Generate sample_MessageToAny
       "envoy.filters.http.rbac" b []).1 !! 1
    = Some (Some {| HttpFilter_Name := "envoy.filters.http.rbac";
                    HttpFilter_TypedConfig :=
                      Message_rbachttppb
                        {| http_Rules :=
                             Some {| Action := RBAC_ALLOW;
                                     Policies :=
                                       {[ "ns[ns1]-policy[allow]-rule[0]"
                                          := Some 4 ]} |} |} |})
  ∧ length (BuildTCP sample_New sample_Migrate sample_Generate sample_MessageToAny
              "envoy.filters.network.rbac" "tcp." b []).1 = 2.
Proof.
  intros b.
  destruct (Build_deny_before_allow sample_New sample_Migrate sample_Generate
              sample_MessageToAny "envoy.filters.http.rbac"
              "envoy.filters.network.rbac" "tcp." b [])
    as [(Hlen & _ & _ & Horder) (Hlen' & _)].
  destruct Horder as [H0 H1]; [by eexists..|].
  split_and!.
  - exact Hlen.
  - etrans; [exact H0|]. by vm_compute.
  - etrans; [exact H1|]. by vm_compute.
  - exact Hlen'.
Defined.

(** C3 on the sample instance: a selector that yields no policy, and one
    that yields allow policies only. *)
Lemma New_absent_iff_no_policy_witness :
  New sample_List tt tt "ns1" ([], []) = None
  ∧ New sample_List tt tt "ns1" ([], sample_policies)
    = Some {| trustDomainBundle := tt; denyPolicies := [];
              allowPolicies := sample_policies |}.
Proof.
  split.
  - by apply (proj1 (New_absent_iff_no_policy sample_List tt tt "ns1" ([], []))).
  - apply (proj2 (New_absent_iff_no_policy sample_List tt tt "ns1"
                    ([], sample_policies))).
    by intros [_ ?].
Defined.

(** C4, amended, on [sample_policies]. *)
Lemma synthetic_names_distinct_witness :
  NoDup (policy_id <$> sample_policies)
  ∧ names_unambiguous sample_policies = true
  ∧ Sprintf_rule_name "ns1" "p1" 0 ≠ Sprintf_rule_name "ns1" "p2" 0
  ∧ ∃ rules,
      (build sample_New sample_Migrate sample_Generate
         sample_policies tt false false []).1
      = Some {| http_Rules := Some rules |}
      ∧ size (Policies rules) = 3
      ∧ Policies rules !! "ns[ns1]-policy[p1]-rule[3]" = Some (Some 5)
      ∧ Policies rules !! "ns[ns1]-policy[p2]-rule[2]" = Some (Some 7).
Proof.
  assert (Hid : NoDup (policy_id <$> sample_policies)).
  { apply (bool_decide_unpack _). by vm_compute. }
  destruct (synthetic_names_distinct sample_New sample_Migrate sample_Generate
              sample_policies tt false false Hid eq_refl)
    as (Hdistinct & _ & Hkept).
  split_and!; [exact Hid|reflexivity|..].
  - apply (Hdistinct 0 1 _ _ 0 0 eq_refl eq_refl). discriminate.
  - eexists. split; [by vm_compute|].
    edestruct (Hkept []) as [Hsize Hlookup]; [by vm_compute|].
    split_and!.
    + etrans; [exact Hsize|]. by vm_compute.
    + apply Hlookup. apply (bool_decide_unpack _). by vm_compute.
    + apply Hlookup. apply (bool_decide_unpack _). by vm_compute.
Defined.

(** C5 on [sample_policies], for the nil rule at index 1 of the first
    policy: the rules around it keep their indices 0 and 3. *)
Lemma rule_failure_isolated_witness :
  rule_fails sample_New sample_Migrate sample_Generate tt false false None = true
  ∧ ∃ rules,
      (build sample_New sample_Migrate sample_Generate
         sample_policies tt false false []).1
      = Some {| http_Rules := Some rules |}
      ∧ rules
        = insert_entries
            [("ns[ns1]-policy[p1]-rule[0]", 3); ("ns[ns1]-policy[p1]-rule[3]", 5);
             ("ns[ns1]-policy[p2]-rule[2]", 7)]
            (initial_rules false).
Proof.
  split; [reflexivity|].
  destruct (rule_failure_isolated sample_New sample_Migrate sample_Generate
              sample_MessageToAny "envoy.filters.http.rbac"
              "envoy.filters.network.rbac" "tcp."
              [] (sample_policy "ns1" "p1" [Some 3; None; Some 0; Some 5])
              [sample_policy "ns1" "p2" [Some 1; Some 2; Some 7]]
              [Some 3] None [Some 0; Some 5] tt false false []
              eq_refl eq_refl)
    as (_ & (rules & Hbuild & Hrules) & _).
  exists rules. split; [exact Hbuild|]. etrans; [exact Hrules|]. by vm_compute.
Defined.

(** C6 on the sample instance: the scenario of the single allow policy. *)
Lemma synthetic_name_format_witness :
  (BuildHTTP sample_New sample_Migrate sample_Generate sample_MessageToAny
     "envoy.filters.http.rbac"
     {| trustDomainBundle := tt; denyPolicies := [];
        allowPolicies := [sample_policy "ns1" "p1" [Some 3]] |} []).1
  = [Some {| HttpFilter_Name := "envoy.filters.http.rbac";
             HttpFilter_TypedConfig :=
               Message_rbachttppb
                 {| http_Rules :=
                      Some {| Action := RBAC_ALLOW;
                              Policies :=
                                {[ "ns[ns1]-policy[p1]-rule[0]" := Some 3 ]} |} |} |}].
Proof.
  exact (proj2 (synthetic_name_format sample_New sample_Migrate sample_Generate
                  sample_MessageToAny "envoy.filters.http.rbac")
           {| trustDomainBundle := tt; denyPolicies := [];
              allowPolicies := [sample_policy "ns1" "p1" [Some 3]] |}
           (sample_policy "ns1" "p1" [Some 3]) 3 3 3 []
           eq_refl eq_refl eq_refl eq_refl eq_refl eq_refl eq_refl).
Defined.

(** C7 on the sample instance: the nil rule at index 1 of the first policy
    of [sample_policies], after which the rule at index 3 is stored under
    the name with index 3; and the policy whose rules are a nil entry and a
    rule that generates. *)
Lemma nil_rule_keeps_index_witness :
  (∃ rules,
     (build sample_New sample_Migrate sample_Generate
        ([] ++ sample_policy "ns1" "p1" ([Some 3] ++ None :: [Some 0; Some 5])
            :: [sample_policy "ns1" "p2" [Some 1; Some 2; Some 7]])
        tt false false []).1
     = Some {| http_Rules := Some rules |}
     ∧ Policies rules !! Sprintf_rule_name "ns1" "p1" 3 = Some (Some 5))
  ∧ ∃ rules,
      build sample_New sample_Migrate sample_Generate
        [sample_policy "ns1" "p1" [None; Some 3]] tt false false []
      = (Some {| http_Rules := Some rules |},
         [ {| level := ErrorLevel; format := "skipped nil rule %s";
              args := [ArgString "ns[ns1]-policy[p1]-rule[0]"] |};
           {| level := DebugLevel; format := "rule %s generated policy: %+v";
              args := [ArgString "ns[ns1]-policy[p1]-rule[1]"; ArgPolicy 3] |} ])
      ∧ Policies rules = {[ "ns[ns1]-policy[p1]-rule[1]" := Some 3 ]}
      ∧ size (Policies rules) = 1
      ∧ Policies rules !! "ns[ns1]-policy[p1]-rule[0]" = None.
Proof.
  split.
  - destruct (proj1 (nil_rule_keeps_index sample_New sample_Migrate sample_Generate)
                [] (sample_policy "ns1" "p1" ([Some 3] ++ None :: [Some 0; Some 5]))
                [sample_policy "ns1" "p2" [Some 1; Some 2; Some 7]]
                [Some 3] [Some 0; Some 5] tt false false [] eq_refl)
      as (_ & _ & rules & Hbuild & _ & _ & Hlookup).
    exists rules. split; [exact Hbuild|].
    apply (Hlookup ltac:(apply (bool_decide_unpack _); by vm_compute)
             1 (Some 5) 5); reflexivity.
  - exact (proj2 (nil_rule_keeps_index sample_New sample_Migrate sample_Generate)
             (sample_policy "ns1" "p1" [None; Some 3]) 3 3 3 tt false false []
             eq_refl eq_refl eq_refl).
Defined.

(** C9 on the sample collaborators with effects: they count their calls,
    and return the same whatever the count. The runs start from different
    counts and logs. *)
Lemma build_deterministic_witness :
  deterministic_collaborators sample_New_st sample_Migrate_st sample_Generate_st
  ∧ (build_st sample_New_st sample_Migrate_st sample_Generate_st
       sample_policies tt false false {| world := 0; authzLog := [] |}).1
    = (build_st sample_New_st sample_Migrate_st sample_Generate_st
         sample_policies tt false false
         {| world := 7;
            authzLog := [ {| level := DebugLevel; format := "earlier";
                             args := [] |} ] |}).1
  ∧ world (build_st sample_New_st sample_Migrate_st sample_Generate_st
             sample_policies tt false false {| world := 0; authzLog := [] |}).2
    = 16.
Proof.
  assert (Hdet : deterministic_collaborators sample_New_st sample_Migrate_st
                   sample_Generate_st) by done.
  split; [exact Hdet|]. split.
  - exact (proj1 (build_deterministic sample_New_st sample_Migrate_st
                    sample_Generate_st sample_policies tt false false _ _ Hdet)).
  - by vm_compute.
Defined.

(** Without the assumption of C9 the result of a run depends on the state
    it starts in: when generation returns the number of calls made so far, a
    second run that follows a first returns another ruleset. *)
Lemma build_needs_deterministic_collaborators :
  let first :=
    build_st sample_New_st sample_Migrate_st counting_Generate_st
      [sample_policy "ns1" "p1" [Some 3]] tt false false
      {| world := 0; authzLog := [] |} in
  first.1
  = Some {| http_Rules :=
              Some {| Action := RBAC_ALLOW;
                      Policies := {[ "ns[ns1]-policy[p1]-rule[0]" := Some 2 ]} |} |}
  ∧ (build_st sample_New_st sample_Migrate_st counting_Generate_st
       [sample_policy "ns1" "p1" [Some 3]] tt false false first.2).1
    = Some {| http_Rules :=
                Some {| Action := RBAC_ALLOW;
                        Policies := {[ "ns[ns1]-policy[p1]-rule[0]" := Some 5 ]} |} |}.
Proof. split; by vm_compute. Qed.

(** C8 on [sample_policies], with each value of [forDeny]. *)
Lemma build_action_witness :
  (∃ rules,
     (build sample_New sample_Migrate sample_Generate
        sample_policies tt false true []).1
     = Some {| http_Rules := Some rules |}
     ∧ Action rules = RBAC_DENY)
  ∧ (∃ rules,
       (build sample_New sample_Migrate sample_Generate
          sample_policies tt true false []).1
       = Some {| http_Rules := Some rules |}
       ∧ Action rules = RBAC_ALLOW).
Proof.
  split.
  - destruct (build_action sample_New sample_Migrate sample_Generate
                sample_policies tt false true [])
      as (rules & Hbuild & Haction & _); [done|].
    by exists rules.
  - destruct (build_action sample_New sample_Migrate sample_Generate
                sample_policies tt true false [])
      as (rules & Hbuild & Haction & _); [done|].
    by exists rules.
Defined.

(** C10 on [sample_policies], for the value stored by the rule at index 3
    of the first policy. *)
Lemma build_values_non_nil_witness :
  let rules :=
    insert_entries
      [("ns[ns1]-policy[p1]-rule[0]", 3); ("ns[ns1]-policy[p1]-rule[3]", 5);
       ("ns[ns1]-policy[p2]-rule[2]", 7)]
      (initial_rules false) in
  (build sample_New sample_Migrate sample_Generate
     sample_policies tt false false []).1
  = Some {| http_Rules := Some rules |}
  ∧ Policies rules !! "ns[ns1]-policy[p1]-rule[3]" = Some (Some 5)
  ∧ ∃ g n policy j rule,
      Some 5 = Some g
      ∧ sample_policies !! n = Some policy
      ∧ Rules (AuthorizationPolicy policy) !! j = Some rule
      ∧ rule_generated sample_New sample_Migrate sample_Generate
          tt false false rule
        = Some g
      ∧ "ns[ns1]-policy[p1]-rule[3]"
        = Sprintf_rule_name (Namespace policy) (Name policy) j.
Proof.
  intros rules.
  assert (Hbuild : (build sample_New sample_Migrate sample_Generate
                      sample_policies tt false false []).1
                   = Some {| http_Rules := Some rules |}) by by vm_compute.
  assert (Hk : Policies rules !! "ns[ns1]-policy[p1]-rule[3]" = Some (Some 5))
    by by vm_compute.
  split_and!; [exact Hbuild|exact Hk|].
  exact (build_values_non_nil sample_New sample_Migrate sample_Generate
           sample_policies tt false false [] _ rules _ _ Hbuild eq_refl Hk).
Defined.

(** X2 on [colliding_policies]: the entry of the second policy is the one
    that stays. *)
Lemma build_keys_last_insertion_witness :
  let rules :=
    insert_entries
      [("ns[a]-policy[b]-policy[c]-rule[0]", 3);
       ("ns[a]-policy[b]-policy[c]-rule[0]", 4)]
      (initial_rules false) in
  (build sample_New sample_Migrate sample_Generate
     colliding_policies tt false false []).1
  = Some {| http_Rules := Some rules |}
  ∧ Policies rules !! "ns[a]-policy[b]-policy[c]-rule[0]" = Some (Some 4)
  ∧ size (Policies rules) ≤ 2.
Proof.
  intros rules.
  assert (Hbuild : (build sample_New sample_Migrate sample_Generate
                      colliding_policies tt false false []).1
                   = Some {| http_Rules := Some rules |}) by by vm_compute.
  destruct (build_keys_last_insertion sample_New sample_Migrate sample_Generate
              colliding_policies tt false false [] rules Hbuild)
    as (_ & Hlast & Hsize & _).
  split_and!; [exact Hbuild| |exact Hsize].
  apply (Hlast [("ns[a]-policy[b]-policy[c]-rule[0]", 3)] _ 4 []); [by vm_compute|].
  apply not_elem_of_nil.
Defined.

(** X4 on the two policies of [sample_policies], built apart and together. *)
Lemma build_app_witness :
  let r1 := insert_entries
              [("ns[ns1]-policy[p1]-rule[0]", 3); ("ns[ns1]-policy[p1]-rule[3]", 5)]
              (initial_rules false) in
  let r2 := insert_entries [("ns[ns1]-policy[p2]-rule[2]", 7)] (initial_rules false) in
  (build sample_New sample_Migrate sample_Generate
     ([sample_policy "ns1" "p1" [Some 3; None; Some 0; Some 5]]
      ++ [sample_policy "ns1" "p2" [Some 1; Some 2; Some 7]])
     tt false false []).1
  = Some {| http_Rules :=
              Some {| Action := RBAC_ALLOW;
                      Policies := Policies r2 ∪ Policies r1 |} |}.
Proof.
  intros r1 r2.
  apply (build_app sample_New sample_Migrate sample_Generate
           [sample_policy "ns1" "p1" [Some 3; None; Some 0; Some 5]]
           [sample_policy "ns1" "p2" [Some 1; Some 2; Some 7]]
           tt false false [] r1 r2); by vm_compute.
Defined.

(** X5 on [sample_policies]: three rules generate, the ruleset has three
    entries. *)
Lemma build_distinct_keys_no_overwrite_witness :
  NoDup (policy_key <$> sample_policies)
  ∧ ∃ rules,
      (build sample_New sample_Migrate sample_Generate
         sample_policies tt false false []).1
      = Some {| http_Rules := Some rules |}
      ∧ size (Policies rules) = 3
      ∧ Policies rules !! Sprintf_rule_name "ns1" "p2" 2 = Some (Some 7).
Proof.
  assert (Hkey : NoDup (policy_key <$> sample_policies)).
  { apply (bool_decide_unpack _). by vm_compute. }
  split; [exact Hkey|]. eexists. split; [by vm_compute|].
  edestruct (build_distinct_keys_no_overwrite sample_New sample_Migrate
               sample_Generate sample_policies tt false false [])
    as [Hsize Hlookup]; [exact Hkey|by vm_compute|].
  split.
  - etrans; [exact Hsize|]. by vm_compute.
  - by apply (Hlookup 1 (sample_policy "ns1" "p2" [Some 1; Some 2; Some 7])
                2 (Some 7) 7).
Defined.

(** X6 on [sample_policies] and the same two policies in the other order. *)
Lemma build_order_irrelevant_witness :
  (build sample_New sample_Migrate sample_Generate
     [sample_policy "ns1" "p1" [Some 3; None; Some 0; Some 5];
      sample_policy "ns1" "p2" [Some 1; Some 2; Some 7]] tt false false []).1
  = (build sample_New sample_Migrate sample_Generate
       [sample_policy "ns1" "p2" [Some 1; Some 2; Some 7];
        sample_policy "ns1" "p1" [Some 3; None; Some 0; Some 5]] tt false false []).1.
Proof.
  apply (build_order_irrelevant sample_New sample_Migrate sample_Generate).
  - apply perm_swap.
  - apply (bool_decide_unpack _). by vm_compute.
Defined.

(** X7 on the sample instance: a policy whose rules are nil, not
    constructible and generating nil, between the two policies of
    [sample_policies] and alone. *)
Lemma build_silent_policy_witness :
  (build sample_New sample_Migrate sample_Generate
     ([sample_policy "ns1" "p1" [Some 3; None; Some 0; Some 5]]
      ++ sample_policy "ns1" "silent" [None; Some 0; Some 2]
         :: [sample_policy "ns1" "p2" [Some 1; Some 2; Some 7]])
     tt false true []).1
  = (build sample_New sample_Migrate sample_Generate
       ([sample_policy "ns1" "p1" [Some 3; None; Some 0; Some 5]]
        ++ [sample_policy "ns1" "p2" [Some 1; Some 2; Some 7]])
       tt false true []).1
  ∧ (build sample_New sample_Migrate sample_Generate
       [sample_policy "ns1" "silent" [None; Some 0; Some 2]] tt false true []).1
    = Some {| http_Rules := Some {| Action := RBAC_DENY; Policies := ∅ |} |}.
Proof.
  destruct (build_silent_policy sample_New sample_Migrate sample_Generate
              [sample_policy "ns1" "p1" [Some 3; None; Some 0; Some 5]]
              (sample_policy "ns1" "silent" [None; Some 0; Some 2])
              [sample_policy "ns1" "p2" [Some 1; Some 2; Some 7]]
              tt false true [])
    as (Hsame & Halone & _).
  - intros rule Hrule. simpl in Hrule.
    repeat (apply elem_of_cons in Hrule as [->|Hrule]; [reflexivity|]).
    by apply elem_of_nil in Hrule.
  - split; [by apply Hsame|exact Halone].
Defined.

(** X8 on the sample instance: a selector that yields allow policies only. *)
Lemma New_builder_filters_witness :
  ∃ b,
    New sample_List tt tt "ns1" ([], sample_policies) = Some b
    ∧ length (BuildHTTP sample_New sample_Migrate sample_Generate
                sample_MessageToAny "envoy.filters.http.rbac" b []).1 = 1
    ∧ length (BuildTCP sample_New sample_Migrate sample_Generate
                sample_MessageToAny "envoy.filters.network.rbac" "tcp." b []).1 = 1.
Proof.
  exists {| trustDomainBundle := tt; denyPolicies := [];
            allowPolicies := sample_policies |}.
  split; [reflexivity|].
  destruct (New_builder_filters sample_List sample_New sample_Migrate
              sample_Generate sample_MessageToAny "envoy.filters.http.rbac"
              "envoy.filters.network.rbac" "tcp." tt tt "ns1"
              ([], sample_policies)
              {| trustDomainBundle := tt; denyPolicies := [];
                 allowPolicies := sample_policies |} [] eq_refl)
    as (Hhttp & Htcp & _).
  split; [exact Hhttp|]. etrans; [exact Htcp|exact Hhttp].
Defined.

End builder.
